(** * static_any: a fixed-capacity, type-erased value container

    Shallow embedding of [any.hpp] (the dispatcher [detail::static_any::operation],
    the general container [static_any<_N>], the casts [any_cast], the exception
    [bad_any_cast] and the trivial container [static_any_t<_N>]) together with the
    properties of its specification.

    Modelling choices, all taken from the header:
    - storage ([std::aligned_storage_t<_N>]) is a list of bytes; an object of
      type [T] placed in it occupies the first [sizeof(T)] bytes;
    - a dispatcher pointer ([function_ptr_t]) is the address of one
      instantiation of [operation<T>]: the pair of the translation unit (or
      binary) that instantiated it and the type [T].  [operation] is declared
      [static], so two units have two addresses for one [T];
    - the payload type is a parameter of every template; its size, its
      [noexcept] traits and what its copy and move constructors do come from a
      class environment [cls];
    - a template parameter [_T] deduced from a forwarding reference is a
      qualified type: a base type, a const flag and a reference kind
      (volatile is left out);
    - a member function that may throw returns the state of [*this] together
      with its outcome, since the caller observes the container after
      catching;
    - constructor and destructor calls of payload objects are recorded in a
      trace, the way the test-suite's [CallCounter] counts them. *)

From Stdlib Require Import List Bool Arith Lia String ZArith.
From Stdlib Require Import Strings.Byte.
Import ListNotations.

Set Implicit Arguments.
Local Open Scope list_scope.

(** ** Bytes, outcomes *)

Definition bytes := list byte.

(** [std::memcpy(dst, src, n)], as the new content of [dst]. *)
Definition memcpy (dst src : bytes) (n : nat) : bytes :=
  firstn n src ++ skipn n dst.

(** Placement of an object representation at the start of a storage. *)
Definition placement (storage obj : bytes) : bytes :=
  memcpy storage obj (List.length obj).

(** The type-identity token of a type: what [std::type_info::name()] returns
    for it (implementation-defined; the test classes below carry the names
    of the Itanium C++ ABI, which g++ and clang print). *)
Definition type_id := string.

(** [std::type_info]: of an object type, or [typeid(void)]. *)
Inductive type_info :=
| typeid_void
| typeid_of (T : type_id).

(** [std::type_info::name()]; [typeid(void).name()] is ["v"] in that ABI. *)
Definition type_info_name (ti : type_info) : string :=
  match ti with
  | typeid_void => "v"
  | typeid_of T => T
  end.

(** [std::type_index(a) == std::type_index(b)] *)
Definition type_index_eqb (a b : type_info) : bool :=
  match a, b with
  | typeid_void, typeid_void => true
  | typeid_of x, typeid_of y => String.eqb x y
  | _, _ => false
  end.

(** [struct bad_any_cast : std::bad_cast] *)
Record bad_any_cast := {
  from_ : type_info;
  to_ : type_info;
  reason_ : string
}.

Definition stored_type (e : bad_any_cast) : type_info := from_ e.
Definition target_type (e : bad_any_cast) : type_info := to_ e.
Definition what (e : bad_any_cast) : string := reason_ e.

(** [bad_any_cast::bad_any_cast(from, to)] *)
Definition make_bad_any_cast (from to : type_info) : bad_any_cast :=
  {| from_ := from;
     to_ := to;
     reason_ := ("failed conversion using any_cast: stored type "
                 ++ type_info_name from
                 ++ ", trying to cast to "
                 ++ type_info_name to)%string |}.

(** What a [throw] carries: a value thrown by a payload constructor
    ([throw 123] in the test-suite), or a [bad_any_cast]. *)
Inductive exception :=
| thrown_value (code : Z)
| thrown_bad_any_cast (e : bad_any_cast).

Inductive result (A : Type) :=
| Ok (a : A)
| Throw (e : exception).
Arguments Ok {A} a.
Arguments Throw {A} e.

(** ** Payload classes *)

(** What the container's templates ask of a payload type [T]. *)
Record class_info := {
  c_sizeof : nat;                       (* sizeof(T) *)
  c_nothrow_copy : bool;                (* std::is_nothrow_copy_constructible<T> *)
  c_nothrow_move : bool;                (* std::is_nothrow_move_constructible<T> *)
  c_trivially_copyable : bool;          (* std::is_trivially_copyable<T> *)
  c_copy : bytes -> result bytes;       (* T(const T&): the new object *)
  c_move : bytes -> result (bytes * bytes)
                                        (* T(T&&): the new object, and the source afterwards *)
}.

(** ** Qualified types and the type traits used by the header *)

Inductive ref_qual := no_ref | lvalue_ref | rvalue_ref.

Record qtype := {
  q_base : type_id;
  q_const : bool;
  q_ref : ref_qual
}.

Definition plain (T : type_id) : qtype :=
  {| q_base := T; q_const := false; q_ref := no_ref |}.

Definition remove_reference_t (q : qtype) : qtype :=
  {| q_base := q_base q; q_const := q_const q; q_ref := no_ref |}.

(** [std::remove_cv_t]: strips a top-level qualifier, so nothing of a
    reference type. *)
Definition remove_cv_t (q : qtype) : qtype :=
  match q_ref q with
  | no_ref => {| q_base := q_base q; q_const := false; q_ref := no_ref |}
  | _ => q
  end.

Definition add_const (q : qtype) : qtype :=
  match q_ref q with
  | no_ref => {| q_base := q_base q; q_const := true; q_ref := no_ref |}
  | _ => q
  end.

(** [_T&&] with reference collapsing. *)
Definition add_rvalue_reference (q : qtype) : qtype :=
  match q_ref q with
  | no_ref => {| q_base := q_base q; q_const := q_const q; q_ref := rvalue_ref |}
  | _ => q
  end.

Definition is_rvalue_reference (q : qtype) : bool :=
  match q_ref q with
  | rvalue_ref => true
  | _ => false
  end.

(** [typeid(_T)]: references and top-level cv-qualifiers are ignored. *)
Definition typeid (q : qtype) : type_info := typeid_of (q_base q).

(** ** The operation selector, dispatcher pointers, the trace *)

Module operation_t.
Inductive t := query_type | query_size | query_noexcept | copy | move | destroy.
End operation_t.

(** The address of an instantiation of [operation<T>]: the translation unit
    (or binary) holding the instantiation, and [T]. *)
Record function_ptr_t := {
  fn_unit : nat;
  fn_type : type_id
}.

Definition function_ptr_eqb (f g : function_ptr_t) : bool :=
  Nat.eqb (fn_unit f) (fn_unit g) && String.eqb (fn_type f) (fn_type g).

(** How a payload object came to life. *)
Inductive origin := by_copy | by_move | by_args.

Inductive event :=
| constructed (how : origin) (T : type_id) (obj : bytes)
| destroyed (T : type_id) (obj : bytes).

Definition trace := list event.

Definition is_destroyed (T : type_id) (ev : event) : bool :=
  match ev with
  | destroyed U _ => String.eqb T U
  | constructed _ _ _ => false
  end.

Definition is_constructed (T : type_id) (ev : event) : bool :=
  match ev with
  | constructed _ U _ => String.eqb T U
  | destroyed _ _ => false
  end.

(** Number of destructor calls, and of completed constructions, of [T]. *)
Definition destructions (T : type_id) (tr : trace) : nat :=
  List.length (filter (is_destroyed T) tr).

Definition constructions (T : type_id) (tr : trace) : nat :=
  List.length (filter (is_constructed T) tr).

(** ** The general container: data *)

(** [template <std::size_t _N> struct static_any] *)
Record static_any := {
  capacity : nat;                        (* _N *)
  buff_ : bytes;                         (* storage_t buff_ *)
  function_ : option function_ptr_t      (* function_ptr_t function_ = nullptr *)
}.

(** [static_any() = default]: the storage is indeterminate, taken as zeros. *)
Definition static_any_default (_N : nat) : static_any :=
  {| capacity := _N; buff_ := repeat x00 _N; function_ := None |}.

Definition set_function (c : static_any) (f : option function_ptr_t) : static_any :=
  {| capacity := capacity c; buff_ := buff_ c; function_ := f |}.

Definition set_buff (c : static_any) (b : bytes) : static_any :=
  {| capacity := capacity c; buff_ := b; function_ := function_ c |}.

(** The state a mutating member function leaves: how it ended, [*this], the
    object it read from, and the trace. *)
Record after (Src : Type) := {
  outcome : result unit;
  this : static_any;
  source : Src;
  log : trace
}.

(** Value category and constness of an argument expression of type [T]. *)
Inductive value_category := lvalue | rvalue.

(** Deduction of [_T] for a parameter [_T&&] (a forwarding reference). *)
Definition deduce_forwarding (T : type_id) (is_const : bool) (cat : value_category) : qtype :=
  {| q_base := T;
     q_const := is_const;
     q_ref := match cat with lvalue => lvalue_ref | rvalue => no_ref end |}.

(** The three forms of a container argument: [const static_any<_M>&],
    [static_any<_M>&], [static_any<_M>&&]. *)
Inductive another_arg := const_lvalue_another | lvalue_another | rvalue_another.

(** ** The classes of the test-suite *)

Definition byte_of_Z (z : Z) : byte :=
  match Byte.of_N (Z.to_N (z mod 256)) with
  | Some b => b
  | None => x00
  end.

(** Object representation of an [int] (little endian, 4 bytes). *)
Definition int_bytes (z : Z) : bytes :=
  [byte_of_Z z; byte_of_Z (Z.shiftr z 8); byte_of_Z (Z.shiftr z 16); byte_of_Z (Z.shiftr z 24)].

(** A scalar of the given size. *)
Definition scalar_class (size : nat) : class_info :=
  {| c_sizeof := size;
     c_nothrow_copy := true;
     c_nothrow_move := true;
     c_trivially_copyable := true;
     c_copy := fun x => Ok x;
     c_move := fun x => Ok (x, x) |}.

(** [struct CallCounter]: user-provided copy and move constructors, neither
    [noexcept], neither throwing. *)
Definition CallCounter : class_info :=
  {| c_sizeof := 1;
     c_nothrow_copy := false;
     c_nothrow_move := false;
     c_trivially_copyable := false;
     c_copy := fun x => Ok x;
     c_move := fun x => Ok (x, x) |}.

(** [struct unsafe_to_copy]: the copy constructor throws [123]; there is no
    move constructor, so an rvalue is copied too. *)
Definition unsafe_to_copy : class_info :=
  {| c_sizeof := 1;
     c_nothrow_copy := false;
     c_nothrow_move := false;
     c_trivially_copyable := false;
     c_copy := fun _ => Throw (thrown_value 123);
     c_move := fun _ => Throw (thrown_value 123) |}.

(** Two classes that are not in the test-suite, used where a move that
    changes the source, or a move that can fail, has to be shown.

    [struct handle { int h; handle(const handle& o) : h(o.h) {}
                     handle(handle&& o) noexcept : h(o.h) { o.h = 0; } };]
    the move constructor takes the value and leaves [0] in the source. *)
Definition handle : class_info :=
  {| c_sizeof := 4;
     c_nothrow_copy := false;
     c_nothrow_move := true;
     c_trivially_copyable := false;
     c_copy := fun x => Ok x;
     c_move := fun x => Ok (x, int_bytes 0) |}.

(** [struct once_movable { char moves = 0;
       once_movable() = default;
       once_movable(const once_movable&) noexcept = default;
       once_movable(once_movable&& o) : moves(o.moves + 1)
       { if (o.moves != 0) throw 7; } };]
    the copy constructor is [noexcept]; an object that was itself obtained
    by a move cannot be moved from again. *)
Definition once_movable : class_info :=
  {| c_sizeof := 1;
     c_nothrow_copy := true;
     c_nothrow_move := false;
     c_trivially_copyable := false;
     c_copy := fun x => Ok x;
     c_move := fun x =>
       match x with
       | [x00] => Ok ([x01], [x00])
       | _ => Throw (thrown_value 7)
       end |}.

(** The names of the types, as [type_info::name()] spells them. *)
Definition t_int : type_id := "i"%string.
Definition t_float : type_id := "f"%string.
Definition t_double : type_id := "d"%string.
Definition t_string : type_id :=
  "NSt7__cxx1112basic_stringIcSt11char_traitsIcESaIcEEE"%string.
Definition t_CallCounter : type_id := "11CallCounter"%string.
Definition t_unsafe_to_copy : type_id := "14unsafe_to_copy"%string.
Definition t_unsafe_to_construct : type_id := "19unsafe_to_construct"%string.
Definition t_handle : type_id := "6handle"%string.
Definition t_once_movable : type_id := "12once_movable"%string.

Definition test_classes (T : type_id) : class_info :=
  if String.eqb T t_int then scalar_class 4
  else if String.eqb T t_float then scalar_class 4
  else if String.eqb T t_double then scalar_class 8
  else if String.eqb T t_CallCounter then CallCounter
  else if String.eqb T t_unsafe_to_copy then unsafe_to_copy
  else if String.eqb T t_handle then handle
  else if String.eqb T t_once_movable then once_movable
  else scalar_class 1.

(** The [throw 123] of [unsafe_to_construct::unsafe_to_construct()]. *)
Definition unsafe_to_construct_ctor : result bytes := Throw (thrown_value 123).

(** Containers of the test-suite, as unit [0] builds them:
    [static_any<_N> a(z)] for an [int] [z], and [static_any<_N> a(counter)]. *)
Definition holding_int (_N : nat) (z : Z) : static_any :=
  {| capacity := _N;
     buff_ := placement (repeat x00 _N) (int_bytes z);
     function_ := Some {| fn_unit := 0; fn_type := t_int |} |}.

Definition holding_CallCounter (_N : nat) : static_any :=
  {| capacity := _N;
     buff_ := placement (repeat x00 _N) [x01];
     function_ := Some {| fn_unit := 0; fn_type := t_CallCounter |} |}.

(** [static_any<16> a; a.emplace<unsafe_to_copy>();] *)
Definition holding_unsafe_to_copy : static_any :=
  {| capacity := 16;
     buff_ := placement (repeat x00 16) [x00];
     function_ := Some {| fn_unit := 0; fn_type := t_unsafe_to_copy |} |}.

(** What [get_any_with_int(z)] of the dynamically loaded library hands over:
    a container bound to the dispatcher instantiated in unit [1]. *)
Definition received_int (_N : nat) (z : Z) : static_any :=
  {| capacity := _N;
     buff_ := placement (repeat x00 _N) (int_bytes z);
     function_ := Some {| fn_unit := 1; fn_type := t_int |} |}.

(** [static_any<_N> a(handle{h});] and
    [static_any<16> a; a.emplace<once_movable>();] *)
Definition holding_handle (_N : nat) (h : Z) : static_any :=
  {| capacity := _N;
     buff_ := placement (repeat x00 _N) (int_bytes h);
     function_ := Some {| fn_unit := 0; fn_type := t_handle |} |}.

Definition holding_once_movable : static_any :=
  {| capacity := 16;
     buff_ := placement (repeat x00 16) [x00];
     function_ := Some {| fn_unit := 0; fn_type := t_once_movable |} |}.

(** ** The trivial container *)

Module static_any_t.

(** [template <std::size_t _N> struct static_any_t] *)
Record t := {
  capacity : nat;      (* _N *)
  buff_ : bytes        (* storage_t buff_ *)
}.

Section Members.

Variable cls : type_id -> class_info.

(** [static_any_t() = default]: the storage is indeterminate. *)
Definition default (_N : nat) (indeterminate : bytes) : t :=
  {| capacity := _N; buff_ := indeterminate |}.

(** [copy<_ValueT>(_ValueT&& t)]: [None] when the instantiation is
    ill-formed: [_ValueT] is const-qualified ([reinterpret_cast<char*>(&t)]
    would cast the const away), or one of the two [static_assert]s rejects
    it. *)
Definition copy (_ValueT : qtype) (v : bytes) (c : t) : option t :=
  if negb (q_const _ValueT)
     && c_trivially_copyable (cls (q_base _ValueT))
     && (c_sizeof (cls (q_base _ValueT)) <=? capacity c)
  then Some {| capacity := capacity c;
               buff_ := memcpy (buff_ c) v (c_sizeof (cls (q_base _ValueT))) |}
  else None.

(** [static_any_t(_ValueT&& t)] *)
Definition from_value (_N : nat) (indeterminate : bytes) (_ValueT : qtype)
  (v : bytes) : option t :=
  copy _ValueT v (default _N indeterminate).

(** [operator=(_ValueT&& t)] *)
Definition operator_assign (_ValueT : qtype) (v : bytes) (c : t) : option t :=
  copy _ValueT v c.

(** [get<_ValueT>()] *)
Definition get (_ValueT : qtype) (c : t) : bytes :=
  firstn (c_sizeof (cls (q_base _ValueT))) (buff_ c).

(** [static_any_t(const static_any_t&) = default], and the implicit copy
    assignment: member-wise. *)
Definition copy_constructor (another : t) : t :=
  {| capacity := capacity another; buff_ := buff_ another |}.

Definition copy_assignment (another : t) (c : t) : t :=
  {| capacity := capacity c; buff_ := buff_ another |}.

(** The forwarding constructor and [operator=] applied to a non-const
    [static_any_t<_N>] lvalue, which overload resolution prefers to the copy
    constructor: [_ValueT] is [static_any_t<_N>&], a trivially copyable type
    of size [sizeof(storage_t)].  The [static_assert] accepts it when that
    size is at most [_N]; [std::aligned_storage_t<_N>] has at least [_N]
    bytes, so the size is [_N] in an accepted program. *)
Definition copy_from_lvalue (sizeof_storage : nat) (another : t) (c : t)
  : option t :=
  if sizeof_storage <=? capacity c
  then Some {| capacity := capacity c;
               buff_ := memcpy (buff_ c) (buff_ another) sizeof_storage |}
  else None.

End Members.

End static_any_t.

Section Model.

(** The payload classes of the program, and the translation unit in which
    the container's member templates are being instantiated. *)
Variable cls : type_id -> class_info.
Variable here : nat.

(** [sizeof(_T)]; of a reference type, the size of the referred type. *)
Definition sizeof (q : qtype) : nat := c_sizeof (cls (q_base q)).

(** [std::is_nothrow_copy_constructible<_T>], that is
    [is_nothrow_constructible<_T, const _T&>]: for [_T = U&] the argument type
    collapses to [U&] and binding a reference does not throw; [U&&] does not
    bind to an lvalue. *)
Definition is_nothrow_copy_constructible (q : qtype) : bool :=
  match q_ref q with
  | no_ref => c_nothrow_copy (cls (q_base q))
  | lvalue_ref => true
  | rvalue_ref => false
  end.

(** [std::is_nothrow_move_constructible<_T>], that is
    [is_nothrow_constructible<_T, _T&&>]; a [const U] rvalue selects the copy
    constructor. *)
Definition is_nothrow_move_constructible (q : qtype) : bool :=
  match q_ref q with
  | no_ref => if q_const q then c_nothrow_copy (cls (q_base q))
              else c_nothrow_move (cls (q_base q))
  | _ => true
  end.

(** *** [detail::static_any::operation<_T>] *)

(** What an operation writes: through [ptr1] for the queries; the storage at
    [ptr1] (and at [ptr2] for a move) for the constructions, or the exception
    of the constructor. *)
Definition effect (op : operation_t.t) : Type :=
  match op with
  | operation_t.query_type => type_info
  | operation_t.query_size => nat
  | operation_t.query_noexcept => bool
  | operation_t.copy => result bytes
  | operation_t.move => result (bytes * bytes)
  | operation_t.destroy => unit
  end.

Definition operation (_T : type_id) (op : operation_t.t) (ptr1 ptr2 : bytes)
  : effect op * trace :=
  match op return effect op * trace with
  | operation_t.query_type => (typeid_of _T, [])
  | operation_t.query_size => (c_sizeof (cls _T), [])
  | operation_t.query_noexcept =>
      (c_nothrow_copy (cls _T) || c_nothrow_move (cls _T), [])
  | operation_t.copy =>
      match c_copy (cls _T) (firstn (c_sizeof (cls _T)) ptr2) with
      | Ok obj => (Ok (placement ptr1 obj), [constructed by_copy _T obj])
      | Throw e => (Throw e, [])
      end
  | operation_t.move =>
      match c_move (cls _T) (firstn (c_sizeof (cls _T)) ptr2) with
      | Ok (obj, rest) =>
          (Ok (placement ptr1 obj, placement ptr2 rest), [constructed by_move _T obj])
      | Throw e => (Throw e, [])
      end
  | operation_t.destroy =>
      (tt, [destroyed _T (firstn (c_sizeof (cls _T)) ptr1)])
  end.

(** A call through a dispatcher pointer: whichever unit instantiated it, the
    body is [operation<T>]. *)
Definition call (f : function_ptr_t) (op : operation_t.t) (ptr1 ptr2 : bytes)
  : effect op * trace :=
  operation (fn_type f) op ptr1 ptr2.

(** [get_function_for_type<_T>()]:
    [&operation<std::remove_cv_t<std::remove_reference_t<_T>>>], in this unit. *)
Definition get_function_for_type (_T : qtype) : function_ptr_t :=
  {| fn_unit := here; fn_type := q_base (remove_cv_t (remove_reference_t _T)) |}.

(** *** [static_any<_N>]: queries *)

Definition empty (c : static_any) : bool :=
  match function_ c with
  | None => true
  | Some _ => false
  end.

(** [query_type], [query_size], [query_noexcept] call through [function_]: no
    result for a null pointer (the first two assert it is not). *)
Definition query_type (c : static_any) : option type_info :=
  match function_ c with
  | Some f => Some (fst (call f operation_t.query_type [] []))
  | None => None
  end.

Definition query_size (c : static_any) : option nat :=
  match function_ c with
  | Some f => Some (fst (call f operation_t.query_size [] []))
  | None => None
  end.

Definition query_noexcept (c : static_any) : option bool :=
  match function_ c with
  | Some f => Some (fst (call f operation_t.query_noexcept [] []))
  | None => None
  end.

Definition has (_T : qtype) (c : static_any) : bool :=
  match function_ c with
  | Some f =>
      if function_ptr_eqb f (get_function_for_type _T) then true
      else
        match query_type c with
        | Some ti => type_index_eqb (typeid _T) ti
        | None => false
        end
  | None => false
  end.

Definition type (c : static_any) : type_info :=
  if empty c then typeid_void
  else match query_type c with
       | Some ti => ti
       | None => typeid_void
       end.

Definition size (c : static_any) : nat :=
  if empty c then 0
  else match query_size c with
       | Some n => n
       | None => 0
       end.

(** [as<_T>()]: the storage seen as a [_T]. *)
Definition as_ (_T : qtype) (c : static_any) : bytes :=
  firstn (sizeof _T) (buff_ c).

(** *** [static_any<_N>]: destruction *)

Definition destroy (c : static_any) (tr : trace) : static_any * trace :=
  match function_ c with
  | Some f =>
      let r := call f operation_t.destroy (buff_ c) [] in
      (set_function c None, tr ++ snd r)
  | None => (c, tr)
  end.

Definition reset (c : static_any) (tr : trace) : static_any * trace :=
  destroy c tr.

(** [~static_any()]: what it adds to the trace. *)
Definition destructor (c : static_any) (tr : trace) : trace :=
  snd (destroy c tr).

(** *** [static_any<_N>]: construction and assignment from a value *)

(** One construction through a dispatcher, by [move] or by [copy]: the
    storage at [this_ptr] and at [other_ptr] afterwards, or the exception. *)
Definition construct_through (f : function_ptr_t) (moving : bool)
  (this_ptr other_ptr : bytes) : result (bytes * bytes) * trace :=
  if moving then call f operation_t.move this_ptr other_ptr
  else
    let r := call f operation_t.copy this_ptr other_ptr in
    (match fst r with
     | Ok b => Ok (b, other_ptr)
     | Throw e => Throw e
     end, snd r).

(** [call_copy_or_move<_RefT>(this_void_ptr, other_void_ptr)]: both
    overloads, selected by [is_rvalue_reference<_RefT>]. *)
Definition call_copy_or_move (_RefT : qtype) (this_ptr other_ptr : bytes)
  : result (bytes * bytes) * trace :=
  construct_through (get_function_for_type _RefT) (is_rvalue_reference _RefT)
    this_ptr other_ptr.

(** [call_copy_or_move<_RefT>(function, this_void_ptr, other_void_ptr)],
    where [_RefT] is a reference to a container. *)
Definition call_copy_or_move_fn (_RefT : ref_qual) (function : function_ptr_t)
  (this_ptr other_ptr : bytes) : result (bytes * bytes) * trace :=
  construct_through function
    (match _RefT with rvalue_ref => true | _ => false end) this_ptr other_ptr.

(** [static_assert(capacity() >= sizeof(_T), ...)] *)
Definition fits (_N : nat) (_T : qtype) : bool := sizeof _T <=? _N.

(** [copy_or_move<_T>(_T&& t)], on a container with a null [function_]. *)
Definition copy_or_move (_T : qtype) (t : bytes) (c : static_any) (tr : trace)
  : after bytes :=
  let r := call_copy_or_move (add_rvalue_reference _T) (buff_ c) t in
  match fst r with
  | Ok (b, t') =>
      {| outcome := Ok tt;
         this := set_function (set_buff c b) (Some (get_function_for_type _T));
         source := t';
         log := tr ++ snd r |}
  | Throw e =>
      {| outcome := Throw e; this := c; source := t; log := tr ++ snd r |}
  end.

(** [assign<_T>(_T&& t)] *)
Definition assign (_T : qtype) (t : bytes) (c : static_any) (tr : trace)
  : after bytes :=
  let cannot_throw :=
    if is_rvalue_reference _T then is_nothrow_move_constructible _T
    else is_nothrow_copy_constructible _T in
  let old_buff := buff_ c in
  let old_function := function_ c in
  let d := destroy c tr in
  let r := call_copy_or_move (add_rvalue_reference _T) (buff_ (fst d)) t in
  match fst r with
  | Ok (b, t') =>
      {| outcome := Ok tt;
         this := set_function (set_buff (fst d) b) (Some (get_function_for_type _T));
         source := t';
         log := snd d ++ snd r |}
  | Throw e =>
      {| outcome := Throw e;
         this := if cannot_throw then fst d
                 else set_function (set_buff (fst d) old_buff) old_function;
         source := t;
         log := snd d ++ snd r |}
  end.

(** [static_any(_T&& v)]: [None] when the [static_assert] rejects [_T]. *)
Definition static_any_from_value (_N : nat) (T : type_id) (is_const : bool)
  (cat : value_category) (v : bytes) (tr : trace) : option (after bytes) :=
  let _T := deduce_forwarding T is_const cat in
  if fits _N _T then Some (copy_or_move _T v (static_any_default _N) tr)
  else None.

(** [operator=] from a value.  A const lvalue selects [operator=(const _T&)],
    whose body [assign(std::forward<_T>(t))] is ill-formed ([std::forward<_T>]
    does not take a const lvalue); every other argument selects
    [operator=(_T&&)].  [None]: rejected at compile time. *)
Definition operator_assign_value (T : type_id) (is_const : bool)
  (cat : value_category) (v : bytes) (c : static_any) (tr : trace)
  : option (after bytes) :=
  match cat, is_const with
  | lvalue, true => None
  | _, _ =>
      let _T := deduce_forwarding T is_const cat in
      if fits (capacity c) _T then Some (assign _T v c tr) else None
  end.

(** *** [static_any<_N>]: construction and assignment from a container *)

(** [std::is_rvalue_reference<decltype(another)>], for [_T&& another]. *)
Definition another_is_rvalue (a : another_arg) : bool :=
  match a with
  | rvalue_another => true
  | _ => false
  end.

(** [copy_or_move_from_another(static_any<_M>&& another)] *)
Definition copy_or_move_from_another (another : static_any) (c : static_any)
  (tr : trace) : after static_any :=
  match function_ another with
  | None => {| outcome := Ok tt; this := c; source := another; log := tr |}
  | Some af =>
      let r := call_copy_or_move_fn rvalue_ref af (buff_ c) (buff_ another) in
      match fst r with
      | Ok (b, s) =>
          {| outcome := Ok tt;
             this := set_function (set_buff c b) (Some af);
             source := set_buff another s;
             log := tr ++ snd r |}
      | Throw e =>
          {| outcome := Throw e; this := c; source := another; log := tr ++ snd r |}
      end
  end.

(** [assign_from_another<_T>(_T&& another)] *)
Definition assign_from_another (a : another_arg) (another : static_any)
  (c : static_any) (tr : trace) : after static_any :=
  match function_ another with
  | None =>
      let d := destroy c tr in
      {| outcome := Ok tt; this := fst d; source := another; log := snd d |}
  | Some af =>
      (* query_noexcept writes through its first pointer, &nothrow_copy *)
      let nothrow_copy := fst (call af operation_t.query_noexcept [] []) in
      let old_buff := buff_ c in
      let old_function := function_ c in
      let d := destroy c tr in
      let r := construct_through af (another_is_rvalue a)
                 (buff_ (fst d)) (buff_ another) in
      match fst r with
      | Ok (b, s) =>
          {| outcome := Ok tt;
             this := set_function (set_buff (fst d) b) (Some af);
             source := set_buff another s;
             log := snd d ++ snd r |}
      | Throw e =>
          {| outcome := Throw e;
             this := if nothrow_copy then fst d
                     else set_function (set_buff (fst d) old_buff) old_function;
             source := another;
             log := snd d ++ snd r |}
      end
  end.

(** The implicitly-declared copy constructor and copy assignment operator
    of [static_any<_N>] (the member templates are neither): member-wise, no
    call through the dispatcher.  Overload resolution selects them, as the
    only non-template candidates, for a const lvalue of the same capacity. *)
Definition implicit_copy (another : static_any) (c : static_any) : static_any :=
  {| capacity := capacity c; buff_ := buff_ another; function_ := function_ another |}.

(** The constructors from a container.  For a const lvalue of another
    capacity, [static_any(const static_any<_M>&)] passes a const lvalue to
    [copy_or_move_from_another(static_any<_M>&&)] and is ill-formed; the
    other two templates pass [std::forward<static_any<_M>>(another)], an
    rvalue.  [None]: rejected at compile time (also when [_M > _N]). *)
Definition static_any_from_another (_N : nat) (a : another_arg)
  (another : static_any) (tr : trace) : option (after static_any) :=
  match a with
  | const_lvalue_another =>
      if capacity another =? _N
      then Some {| outcome := Ok tt;
                   this := implicit_copy another (static_any_default _N);
                   source := another;
                   log := tr |}
      else None
  | lvalue_another | rvalue_another =>
      if capacity another <=? _N
      then Some (copy_or_move_from_another another (static_any_default _N) tr)
      else None
  end.

(** [operator=] from a container: the three templates, and the implicit
    copy assignment for a const lvalue of the same capacity. *)
Definition operator_assign_another (a : another_arg) (another : static_any)
  (c : static_any) (tr : trace) : option (after static_any) :=
  match a with
  | const_lvalue_another =>
      if capacity another =? capacity c
      then Some {| outcome := Ok tt;
                   this := implicit_copy another c;
                   source := another;
                   log := tr |}
      else if capacity another <=? capacity c
      then Some (assign_from_another a another c tr)
      else None
  | lvalue_another | rvalue_another =>
      if capacity another <=? capacity c
      then Some (assign_from_another a another c tr)
      else None
  end.

(** *** [emplace<_T>(args...)] *)

(** The statements of [emplace].  [ctor] is what
    [new(&buff_) _T(std::forward<Args>(args)...)] does: the object it
    builds, or the exception it throws.  The local [old] is destroyed on
    every way out. *)
Definition emplace_steps (_T : qtype) (ctor : result bytes) (c : static_any)
  (tr : trace) : after unit :=
  let old0 := static_any_default (capacity c) in
  let keep :=
    negb (empty c) &&
    match query_noexcept c with Some b => b | None => false end in
  let saved :=
    if keep then assign_from_another rvalue_another c old0 tr
    else {| outcome := Ok tt; this := old0; source := c; log := tr |} in
  match outcome saved with
  | Throw e =>
      {| outcome := Throw e;
         this := source saved;
         source := tt;
         log := destructor (this saved) (log saved) |}
  | Ok _ =>
      let old := this saved in
      let d := destroy (source saved) (log saved) in
      match ctor with
      | Ok obj =>
          {| outcome := Ok tt;
             this := set_function (set_buff (fst d) (placement (buff_ (fst d)) obj))
                       (Some (get_function_for_type _T));
             source := tt;
             log := destructor old
                      (snd d ++ [constructed by_args (q_base _T) obj]) |}
      | Throw e =>
          if negb (empty old) then
            let back := assign_from_another rvalue_another old (fst d) (snd d) in
            {| outcome := match outcome back with
                          | Ok _ => Throw e
                          | Throw e' => Throw e'
                          end;
               this := this back;
               source := tt;
               log := destructor (source back) (log back) |}
          else
            {| outcome := Throw e;
               this := fst d;
               source := tt;
               log := destructor old (snd d) |}
      end
  end.

(** [emplace<_T>(args...)].  Unlike the constructor and [assign], [emplace]
    has no [static_assert] on [sizeof(_T)]: an object larger than the
    storage is written past the end of [buff_], and the behaviour is
    undefined.  [None]: that overrun. *)
Definition emplace (_T : qtype) (ctor : result bytes) (c : static_any)
  (tr : trace) : option (after unit) :=
  match ctor with
  | Ok obj =>
      if List.length obj <=? List.length (buff_ c)
      then Some (emplace_steps _T ctor c tr)
      else None
  | Throw _ => Some (emplace_steps _T ctor c tr)
  end.

(** *** [any_cast], [get] *)

(** [any_cast<_ValueT>(static_any<_S>* a)]; [None] is the null pointer. *)
Definition any_cast_ptr (_ValueT : qtype) (a : static_any)
  : result (option bytes) :=
  if negb (has _ValueT a) then Ok None
  else Ok (Some (as_ _ValueT a)).

(** [any_cast<_ValueT>(const static_any<_S>* a)] *)
Definition any_cast_const_ptr (_ValueT : qtype) (a : static_any)
  : result (option bytes) :=
  any_cast_ptr (add_const _ValueT) a.

(** [any_cast<_ValueT>(static_any<_S>& a)] *)
Definition any_cast_ref (_ValueT : qtype) (a : static_any) : result bytes :=
  if negb (has _ValueT a)
  then Throw (thrown_bad_any_cast (make_bad_any_cast (type a) (typeid _ValueT)))
  else Ok (as_ _ValueT a).

(** [any_cast<_ValueT>(const static_any<_S>& a)] *)
Definition any_cast_const_ref (_ValueT : qtype) (a : static_any) : result bytes :=
  any_cast_ref (add_const _ValueT) a.

(** [get<_T>()] and [get<_T>() const] *)
Definition get (_T : qtype) (c : static_any) : result bytes :=
  any_cast_ref _T c.

Definition get_const (_T : qtype) (c : static_any) : result bytes :=
  any_cast_const_ref _T c.

(** *** A whole life of a container *)

(** [{ static_any<_N> a(v1); try { a = v2; } catch (...) {} }]: how the
    assignment ended, and the trace when [a] has been destroyed. *)
Definition construct_assign_destroy (_N : nat)
  (T1 : type_id) (const1 : bool) (cat1 : value_category) (v1 : bytes)
  (T2 : type_id) (const2 : bool) (cat2 : value_category) (v2 : bytes)
  : option (result unit * trace) :=
  match static_any_from_value _N T1 const1 cat1 v1 [] with
  | Some built =>
      match operator_assign_value T2 const2 cat2 v2 (this built) (log built) with
      | Some assigned =>
          Some (outcome assigned, destructor (this assigned) (log assigned))
      | None => None
      end
  | None => None
  end.

(** *** The constructor a value argument selects *)

(** [call_copy_or_move<_T&&>] runs the copy constructor for an lvalue and the
    move constructor for an rvalue. *)
Definition origin_of (cat : value_category) : origin :=
  match cat with
  | lvalue => by_copy
  | rvalue => by_move
  end.

(** The object that constructor builds from the argument [v], or what it
    throws. *)
Definition chosen_constructor (T : type_id) (cat : value_category) (v : bytes)
  : result bytes :=
  match cat with
  | lvalue => c_copy (cls T) (firstn (c_sizeof (cls T)) v)
  | rvalue =>
      match c_move (cls T) (firstn (c_sizeof (cls T)) v) with
      | Ok (obj, _) => Ok obj
      | Throw e => Throw e
      end
  end.

(** [{ static_any<_N> a(v); }]: the trace when [a] has been destroyed. *)
Definition construct_destroy (_N : nat) (T : type_id) (is_const : bool)
  (cat : value_category) (v : bytes) : option (result unit * trace) :=
  match static_any_from_value _N T is_const cat v [] with
  | Some built => Some (outcome built, destructor (this built) (log built))
  | None => None
  end.

(** The payload constructor that [assign_from_another] runs on the source's
    payload [x]: the move constructor for an rvalue source, the copy
    constructor for the two lvalue forms. *)
Definition another_constructor (a : another_arg) (f : function_ptr_t)
  (x : bytes) : result bytes :=
  if another_is_rvalue a
  then match c_move (cls (fn_type f)) x with
       | Ok (obj, _) => Ok obj
       | Throw e => Throw e
       end
  else c_copy (cls (fn_type f)) x.

(** ** Properties *)

(** *** Storage *)

Lemma firstn_placement (storage obj : bytes) :
  firstn (List.length obj) (placement storage obj) = obj.
Proof.
  unfold placement, memcpy.
  rewrite firstn_all, firstn_app, firstn_all, Nat.sub_diag.
  simpl. apply app_nil_r.
Qed.

Lemma firstn_placement_eq (storage obj : bytes) (n : nat) :
  List.length obj = n -> firstn n (placement storage obj) = obj.
Proof. intros <-. apply firstn_placement. Qed.

Lemma memcpy_whole (dst src : bytes) (n : nat) :
  List.length src = n -> List.length dst = n -> memcpy dst src n = src.
Proof.
  intros Hs Hd. unfold memcpy.
  rewrite <- Hs at 1. rewrite firstn_all.
  rewrite <- Hd, skipn_all. apply app_nil_r.
Qed.

(** *** Dispatcher pointers and type tokens *)

Lemma function_ptr_eqb_eq (f g : function_ptr_t) :
  function_ptr_eqb f g = true <-> f = g.
Proof.
  unfold function_ptr_eqb. destruct f as [u t], g as [u' t']; simpl.
  rewrite andb_true_iff, Nat.eqb_eq, String.eqb_eq.
  split.
  - intros [-> ->]. reflexivity.
  - intros H. inversion H. split; reflexivity.
Qed.

Lemma get_function_for_type_base (_T : qtype) :
  get_function_for_type _T = {| fn_unit := here; fn_type := q_base _T |}.
Proof. unfold get_function_for_type. destruct _T as [b k []]; reflexivity. Qed.

Lemma has_spec (_T : qtype) (c : static_any) :
  has _T c = true <-> exists f, function_ c = Some f /\ fn_type f = q_base _T.
Proof.
  unfold has, query_type.
  destruct (function_ c) as [f|] eqn:Hf.
  - destruct (function_ptr_eqb f (get_function_for_type _T)) eqn:Heq.
    + apply function_ptr_eqb_eq in Heq. subst f.
      rewrite get_function_for_type_base. simpl.
      split; [intros _; eexists; split; [reflexivity|reflexivity] | reflexivity].
    + simpl. rewrite String.eqb_eq. split.
      * intros H. exists f. split; [reflexivity | symmetry; exact H].
      * intros [g [Hg Ht]]. inversion Hg; subst g. symmetry; exact Ht.
  - split; [discriminate | intros [f [H _]]; discriminate].
Qed.

Lemma has_false_of_empty (_T : qtype) (c : static_any) :
  empty c = true -> has _T c = false.
Proof.
  unfold empty, has. destruct (function_ c); [discriminate | reflexivity].
Qed.

(** C7: [has<T>()] is true exactly when the container is bound to a
    dispatcher of [T] (so false when empty and false for any other stored
    type); and when the stored type is [T] but the dispatcher was
    instantiated in another unit, the comparison of dispatcher addresses
    fails and [has<T>()] is still true, by the comparison of the type
    tokens. *)
Theorem has_exact_type (_T : qtype) (c : static_any) :
  (has _T c = true <-> exists f, function_ c = Some f /\ fn_type f = q_base _T) /\
  (empty c = true -> has _T c = false) /\
  (forall f, function_ c = Some f -> fn_type f <> q_base _T -> has _T c = false) /\
  (forall f, function_ c = Some f -> fn_type f = q_base _T -> fn_unit f <> here ->
     function_ptr_eqb f (get_function_for_type _T) = false /\
     query_type c = Some (typeid _T) /\
     has _T c = true).
Proof.
  split; [apply has_spec|].
  split; [apply has_false_of_empty|].
  split.
  - intros f Hf Hne. destruct (has _T c) eqn:Hh; [|reflexivity].
    apply has_spec in Hh. destruct Hh as [g [Hg Ht]].
    rewrite Hf in Hg. inversion Hg; subst g. contradiction.
  - intros f Hf Ht Hu. split; [|split].
    + destruct (function_ptr_eqb f (get_function_for_type _T)) eqn:Heq; [|reflexivity].
      apply function_ptr_eqb_eq in Heq. subst f.
      rewrite get_function_for_type_base in Hu. simpl in Hu. contradiction.
    + unfold query_type. rewrite Hf. simpl. unfold typeid. rewrite Ht. reflexivity.
    + apply has_spec. exists f. split; assumption.
Qed.

Lemma has_ignores_qualifiers (_T _U : qtype) (c : static_any) :
  q_base _T = q_base _U -> has _T c = has _U c.
Proof.
  intros Hb. unfold has, typeid.
  rewrite !get_function_for_type_base, Hb. reflexivity.
Qed.

(** *** Casts *)

Lemma type_of_empty (c : static_any) :
  empty c = true -> type c = typeid_void.
Proof. unfold type. intros ->. reflexivity. Qed.

Lemma type_of_bound (c : static_any) (f : function_ptr_t) :
  function_ c = Some f -> type c = typeid_of (fn_type f).
Proof.
  intros Hf. unfold type, empty, query_type. rewrite Hf. reflexivity.
Qed.

(** C8: when [has<T>()] is false (as it is on an empty container), the
    pointer casts return the null pointer and do not throw; the reference
    cast, and so [get<T>()] and [get<T>() const], throw a [bad_any_cast]
    whose [stored_type()] is the container's [type()] (the stored type, or
    [typeid(void)] when empty) and whose [target_type()] is [typeid(T)]. *)
Theorem any_cast_type_mismatch (_T : qtype) (c : static_any) :
  has _T c = false ->
  any_cast_ptr _T c = Ok None /\
  any_cast_const_ptr _T c = Ok None /\
  (exists e,
     any_cast_ref _T c = Throw (thrown_bad_any_cast e) /\
     get _T c = Throw (thrown_bad_any_cast e) /\
     get_const _T c = Throw (thrown_bad_any_cast e) /\
     stored_type e = type c /\
     target_type e = typeid _T) /\
  (empty c = true -> type c = typeid_void) /\
  (forall f, function_ c = Some f -> type c = typeid_of (fn_type f)).
Proof.
  intros Hh.
  assert (Hk : has (add_const _T) c = false).
  { rewrite <- Hh. apply has_ignores_qualifiers.
    unfold add_const. destruct (q_ref _T); reflexivity. }
  split; [|split; [|split; [|split]]].
  - unfold any_cast_ptr. rewrite Hh. reflexivity.
  - unfold any_cast_const_ptr, any_cast_ptr. rewrite Hk. reflexivity.
  - exists (make_bad_any_cast (type c) (typeid _T)).
    unfold get, get_const, any_cast_const_ref, any_cast_ref.
    rewrite Hh, Hk. simpl.
    split; [reflexivity|]. split; [reflexivity|]. split; [|split; reflexivity].
    unfold typeid, add_const. destruct (q_ref _T); reflexivity.
  - apply type_of_empty.
  - apply type_of_bound.
Qed.

(** *** Destruction *)

Lemma destroy_this (c : static_any) (tr : trace) :
  fst (destroy c tr) = set_function c None.
Proof.
  unfold destroy. destruct (function_ c) eqn:Hf; simpl; [reflexivity|].
  destruct c as [n b g]; simpl in *. subst g. reflexivity.
Qed.

Lemma destroy_log_bound (c : static_any) (tr : trace) (f : function_ptr_t) :
  function_ c = Some f ->
  snd (destroy c tr) = tr ++ [destroyed (fn_type f) (as_ (plain (fn_type f)) c)].
Proof. intros Hf. unfold destroy. rewrite Hf. reflexivity. Qed.

Lemma destroy_log_empty (c : static_any) (tr : trace) :
  function_ c = None -> snd (destroy c tr) = tr.
Proof. intros Hf. unfold destroy. rewrite Hf. reflexivity. Qed.

(** *** Assignment from a container *)

Lemma get_of_bound (T : type_id) (c : static_any) (f : function_ptr_t) :
  function_ c = Some f -> fn_type f = T ->
  get (plain T) c = Ok (as_ (plain T) c).
Proof.
  intros Hf Ht. unfold get, any_cast_ref.
  assert (Hh : has (plain T) c = true)
    by (apply has_spec; exists f; split; assumption).
  rewrite Hh. reflexivity.
Qed.

Lemma assign_from_another_copy_ok (a : another_arg) (another c : static_any)
  (tr : trace) (f : function_ptr_t) (x : bytes) :
  another_is_rvalue a = false ->
  function_ another = Some f ->
  c_copy (cls (fn_type f)) (as_ (plain (fn_type f)) another) = Ok x ->
  assign_from_another a another c tr =
  {| outcome := Ok tt;
     this := {| capacity := capacity c;
                buff_ := placement (buff_ c) x;
                function_ := Some f |};
     source := another;
     log := snd (destroy c tr) ++ [constructed by_copy (fn_type f) x] |}.
Proof.
  intros Ha Hf Hc. unfold assign_from_another. rewrite Hf, Ha.
  unfold construct_through, call, operation, as_, sizeof in *. simpl in *.
  rewrite destroy_this. simpl. rewrite Hc. simpl.
  unfold set_function, set_buff. simpl.
  destruct another as [n b g]; simpl in *. reflexivity.
Qed.

Lemma assign_from_another_empty (a : another_arg) (another c : static_any)
  (tr : trace) :
  function_ another = None ->
  assign_from_another a another c tr =
  {| outcome := Ok tt; this := set_function c None; source := another;
     log := snd (destroy c tr) |}.
Proof.
  intros Hf. unfold assign_from_another. rewrite Hf, destroy_this. reflexivity.
Qed.

(** C6: a source of larger capacity is rejected; otherwise copy-assigning a
    source that stores a [T] whose copy constructor yields an equal value
    gives a destination with [has<T>()] true and [get<T>()] equal to the
    source's value; and from an empty source the destination is empty after
    the assignment (whatever it held) and after the construction. *)
Theorem copy_assign_from_another (a : another_arg) (another c : static_any)
  (tr : trace) :
  another_is_rvalue a = false ->
  (capacity c < capacity another ->
   operator_assign_another a another c tr = None) /\
  (capacity another <= capacity c ->
   (forall f x,
      function_ another = Some f ->
      as_ (plain (fn_type f)) another = x ->
      List.length x = c_sizeof (cls (fn_type f)) ->
      c_copy (cls (fn_type f)) x = Ok x ->
      exists r,
        operator_assign_another a another c tr = Some r /\
        outcome r = Ok tt /\
        has (plain (fn_type f)) (this r) = true /\
        get (plain (fn_type f)) (this r) = Ok x) /\
   (function_ another = None ->
      (exists r,
         operator_assign_another a another c tr = Some r /\
         outcome r = Ok tt /\ empty (this r) = true) /\
      (forall a' r,
         static_any_from_another (capacity c) a' another tr = Some r ->
         outcome r = Ok tt /\ empty (this r) = true) /\
      (exists r,
         static_any_from_another (capacity c) lvalue_another another tr = Some r))).
Proof.
  intros Ha. split.
  - intros Hlt. unfold operator_assign_another.
    assert (H1 : (capacity another =? capacity c) = false)
      by (apply Nat.eqb_neq; lia).
    assert (H2 : (capacity another <=? capacity c) = false)
      by (apply Nat.leb_gt; lia).
    rewrite H1, H2. destruct a; reflexivity.
  - intros Hle.
    assert (H2 : (capacity another <=? capacity c) = true)
      by (apply Nat.leb_le; exact Hle).
    split.
    + intros f x Hf Hx Hlen Hc.
      assert (Hvia : forall r,
                r = assign_from_another a another c tr ->
                outcome r = Ok tt /\
                has (plain (fn_type f)) (this r) = true /\
                get (plain (fn_type f)) (this r) = Ok x).
      { intros r ->. subst x.
        erewrite assign_from_another_copy_ok; [|exact Ha|exact Hf|exact Hc]. simpl.
        split; [reflexivity|]. split.
        - apply has_spec. exists f. split; reflexivity.
        - erewrite get_of_bound; [|reflexivity|reflexivity].
          unfold as_ at 1. unfold sizeof. simpl.
          rewrite firstn_placement_eq; [reflexivity|]. exact Hlen. }
      unfold operator_assign_another. rewrite H2.
      destruct a; try discriminate.
      * destruct (capacity another =? capacity c).
        -- eexists. split; [reflexivity|]. simpl.
           split; [reflexivity|]. split.
           ++ apply has_spec. exists f. split; [exact Hf|reflexivity].
           ++ erewrite get_of_bound; [|exact Hf|reflexivity].
              unfold as_ in *. simpl. rewrite Hx. reflexivity.
        -- eexists. split; [reflexivity|]. apply Hvia. reflexivity.
      * eexists. split; [reflexivity|]. apply Hvia. reflexivity.
    + intros Hf. split; [|split].
      * unfold operator_assign_another. rewrite H2.
        rewrite (@assign_from_another_empty a another c tr Hf).
        destruct a; try discriminate.
        -- destruct (capacity another =? capacity c);
             eexists; (split; [reflexivity|]); simpl;
             unfold empty; simpl; rewrite ?Hf; split; reflexivity.
        -- eexists. split; [reflexivity|]. simpl. split; reflexivity.
      * intros a' r. unfold static_any_from_another, copy_or_move_from_another.
        rewrite Hf.
        destruct a'; [destruct (capacity another =? capacity c)|
                      destruct (capacity another <=? capacity c)|
                      destruct (capacity another <=? capacity c)];
          try discriminate; intros H; inversion H; subst r; simpl;
          unfold empty; simpl; rewrite ?Hf; split; reflexivity.
      * unfold static_any_from_another. rewrite H2. eexists. reflexivity.
Qed.

Lemma assign_from_another_move_ok (another c : static_any) (tr : trace)
  (f : function_ptr_t) (obj rest : bytes) :
  function_ another = Some f ->
  c_move (cls (fn_type f)) (as_ (plain (fn_type f)) another) = Ok (obj, rest) ->
  assign_from_another rvalue_another another c tr =
  {| outcome := Ok tt;
     this := {| capacity := capacity c;
                buff_ := placement (buff_ c) obj;
                function_ := Some f |};
     source := set_buff another (placement (buff_ another) rest);
     log := snd (destroy c tr) ++ [constructed by_move (fn_type f) obj] |}.
Proof.
  intros Hf Hm. unfold assign_from_another. rewrite Hf.
  unfold construct_through, call, operation, as_, sizeof in *. simpl in *.
  rewrite destroy_this. simpl. rewrite Hm. reflexivity.
Qed.

Lemma assign_from_another_move_throw (another c : static_any) (tr : trace)
  (f : function_ptr_t) (e : exception) :
  function_ another = Some f ->
  c_move (cls (fn_type f)) (as_ (plain (fn_type f)) another) = Throw e ->
  outcome (assign_from_another rvalue_another another c tr) = Throw e /\
  source (assign_from_another rvalue_another another c tr) = another.
Proof.
  intros Hf Hm. unfold assign_from_another. rewrite Hf.
  unfold construct_through, call, operation, as_, sizeof in *. simpl in *.
  rewrite Hm. simpl. split; reflexivity.
Qed.

Lemma assign_from_another_source_function (a : another_arg)
  (another c : static_any) (tr : trace) :
  function_ (source (assign_from_another a another c tr)) = function_ another.
Proof.
  unfold assign_from_another. destruct (function_ another) as [f|] eqn:Hf.
  - destruct (fst (construct_through f (another_is_rvalue a)
                     (buff_ (fst (destroy c tr))) (buff_ another)))
      as [[b s]|e]; simpl; [exact Hf | exact Hf].
  - simpl. exact Hf.
Qed.

Lemma assign_from_another_copy_source (a : another_arg)
  (another c : static_any) (tr : trace) :
  another_is_rvalue a = false ->
  source (assign_from_another a another c tr) = another.
Proof.
  intros Ha. unfold assign_from_another, construct_through, call, operation.
  rewrite Ha.
  destruct (function_ another) as [f|]; [|reflexivity].
  destruct (c_copy (cls (fn_type f))
              (firstn (c_sizeof (cls (fn_type f))) (buff_ another)));
    simpl; [|reflexivity].
  destruct another; reflexivity.
Qed.

Lemma copy_or_move_from_another_source_function (another c : static_any)
  (tr : trace) :
  function_ (source (copy_or_move_from_another another c tr)) = function_ another.
Proof.
  unfold copy_or_move_from_another. destruct (function_ another) as [f|] eqn:Hf.
  - destruct (fst (call_copy_or_move_fn rvalue_ref f (buff_ c) (buff_ another)))
      as [[b s]|e]; simpl; [exact Hf | exact Hf].
  - simpl. exact Hf.
Qed.

Lemma copy_or_move_from_another_ok (another c : static_any) (tr : trace)
  (f : function_ptr_t) (obj rest : bytes) :
  function_ another = Some f ->
  c_move (cls (fn_type f)) (as_ (plain (fn_type f)) another) = Ok (obj, rest) ->
  copy_or_move_from_another another c tr =
  {| outcome := Ok tt;
     this := {| capacity := capacity c;
                buff_ := placement (buff_ c) obj;
                function_ := Some f |};
     source := set_buff another (placement (buff_ another) rest);
     log := tr ++ [constructed by_move (fn_type f) obj] |}.
Proof.
  intros Hf Hm. unfold copy_or_move_from_another. rewrite Hf.
  unfold call_copy_or_move_fn, construct_through, call, operation, as_, sizeof in *.
  simpl in *. rewrite Hm. reflexivity.
Qed.

Lemma bound_not_empty (c : static_any) (f : function_ptr_t) :
  function_ c = Some f -> empty c = false.
Proof. intros H. unfold empty. rewrite H. reflexivity. Qed.

Lemma type_depends_on_function (c d : static_any) :
  function_ c = function_ d -> type c = type d.
Proof. intros H. unfold type, empty, query_type. rewrite H. reflexivity. Qed.

(** C3, as the code has it: for a non-empty source of capacity at most the
    destination's, copy-assignment leaves the source as it was; a move
    assignment and a move construction leave the source non-empty, bound to
    the same dispatcher and reporting the same type, its storage holding
    what the payload's move constructor left there. *)
Theorem source_after_copy_and_after_move (another c : static_any) (tr : trace)
  (f : function_ptr_t) :
  function_ another = Some f ->
  capacity another <= capacity c ->
  (forall a, another_is_rvalue a = false ->
     exists r, operator_assign_another a another c tr = Some r /\
               source r = another) /\
  (exists r, operator_assign_another rvalue_another another c tr = Some r /\
             function_ (source r) = Some f /\
             empty (source r) = false /\
             type (source r) = type another /\
             forall obj rest,
               c_move (cls (fn_type f)) (as_ (plain (fn_type f)) another)
               = Ok (obj, rest) ->
               outcome r = Ok tt /\
               buff_ (source r) = placement (buff_ another) rest) /\
  (exists r, static_any_from_another (capacity c) rvalue_another another tr = Some r /\
             function_ (source r) = Some f /\
             empty (source r) = false /\
             type (source r) = type another /\
             forall obj rest,
               c_move (cls (fn_type f)) (as_ (plain (fn_type f)) another)
               = Ok (obj, rest) ->
               outcome r = Ok tt /\
               buff_ (source r) = placement (buff_ another) rest).
Proof.
  intros Hf Hle.
  assert (H2 : (capacity another <=? capacity c) = true)
    by (apply Nat.leb_le; exact Hle).
  split; [|split].
  - intros a Ha. unfold operator_assign_another. rewrite H2.
    destruct a; try discriminate.
    + destruct (capacity another =? capacity c);
        eexists; (split; [reflexivity|]); simpl;
        [reflexivity | apply assign_from_another_copy_source; reflexivity].
    + eexists. split; [reflexivity|].
      apply assign_from_another_copy_source; reflexivity.
  - unfold operator_assign_another. rewrite H2.
    eexists. split; [reflexivity|].
    pose proof (assign_from_another_source_function rvalue_another another c tr) as Hs.
    rewrite Hf in Hs.
    split; [exact Hs|]. split; [eapply bound_not_empty; exact Hs|].
    split; [apply type_depends_on_function; rewrite Hs, Hf; reflexivity|].
    intros obj rest Hm.
    erewrite assign_from_another_move_ok; [|exact Hf|exact Hm].
    split; reflexivity.
  - unfold static_any_from_another. rewrite H2.
    eexists. split; [reflexivity|].
    pose proof (copy_or_move_from_another_source_function another
                  (static_any_default (capacity c)) tr) as Hs.
    rewrite Hf in Hs.
    split; [exact Hs|]. split; [eapply bound_not_empty; exact Hs|].
    split; [apply type_depends_on_function; rewrite Hs, Hf; reflexivity|].
    intros obj rest Hm.
    erewrite copy_or_move_from_another_ok; [|exact Hf|exact Hm].
    split; reflexivity.
Qed.

(** *** [emplace] with a throwing constructor *)

Lemma emplace_throw_not_kept (_T : qtype) (e : exception) (c : static_any)
  (tr : trace) :
  negb (empty c) &&
    match query_noexcept c with Some b => b | None => false end = false ->
  outcome (emplace_steps _T (Throw e) c tr) = Throw e /\
  this (emplace_steps _T (Throw e) c tr) = set_function c None.
Proof.
  intros Hk. unfold emplace_steps. rewrite Hk. simpl.
  rewrite destroy_this. split; reflexivity.
Qed.

Lemma emplace_steps_constructor_throws (_T : qtype) (e : exception)
  (c : static_any) (tr : trace) :
  (forall f x rest,
     function_ c = Some f ->
     query_noexcept c = Some true ->
     as_ (plain (fn_type f)) c = x ->
     List.length x = c_sizeof (cls (fn_type f)) ->
     c_move (cls (fn_type f)) x = Ok (x, rest) ->
     outcome (emplace_steps _T (Throw e) c tr) = Throw e /\
     function_ (this (emplace_steps _T (Throw e) c tr)) = Some f /\
     type (this (emplace_steps _T (Throw e) c tr)) = type c /\
     as_ (plain (fn_type f)) (this (emplace_steps _T (Throw e) c tr)) = x) /\
  (forall f e',
     function_ c = Some f ->
     query_noexcept c = Some true ->
     c_move (cls (fn_type f)) (as_ (plain (fn_type f)) c) = Throw e' ->
     outcome (emplace_steps _T (Throw e) c tr) = Throw e' /\
     this (emplace_steps _T (Throw e) c tr) = c) /\
  (forall f,
     function_ c = Some f ->
     query_noexcept c = Some false ->
     outcome (emplace_steps _T (Throw e) c tr) = Throw e /\
     empty (this (emplace_steps _T (Throw e) c tr)) = true) /\
  (empty c = true ->
   outcome (emplace_steps _T (Throw e) c tr) = Throw e /\
   empty (this (emplace_steps _T (Throw e) c tr)) = true).
Proof.
  split; [|split; [|split]].
  - intros f x rest Hf Hq Hx Hlen Hm. subst x.
    assert (Hx' : forall b,
              firstn (c_sizeof (cls (fn_type f)))
                (placement b (as_ (plain (fn_type f)) c))
              = as_ (plain (fn_type f)) c)
      by (intros b; apply firstn_placement_eq; exact Hlen).
    unfold emplace_steps. rewrite Hq. erewrite bound_not_empty by exact Hf. simpl.
    erewrite assign_from_another_move_ok; [|exact Hf|exact Hm]. simpl.
    erewrite assign_from_another_move_ok;
      [|reflexivity| unfold as_, sizeof; simpl; rewrite Hx'; exact Hm].
    simpl. split; [reflexivity|]. split; [reflexivity|]. split.
    + apply type_depends_on_function. simpl. symmetry. exact Hf.
    + unfold as_ at 1. unfold sizeof. simpl. apply Hx'.
  - intros f e' Hf Hq Hm.
    unfold emplace_steps. rewrite Hq. erewrite bound_not_empty by exact Hf. simpl.
    destruct (@assign_from_another_move_throw c
                (static_any_default (capacity c)) tr f e' Hf Hm) as [Ho Hs].
    rewrite Ho. simpl. rewrite Hs. split; reflexivity.
  - intros f Hf Hq.
    destruct (@emplace_throw_not_kept _T e c tr) as [Ho Ht].
    { rewrite Hq. apply andb_false_r. }
    rewrite Ho, Ht. split; reflexivity.
  - intros He.
    destruct (@emplace_throw_not_kept _T e c tr) as [Ho Ht].
    { rewrite He. reflexivity. }
    rewrite Ho, Ht. split; reflexivity.
Qed.

(** *** [reset] and the destructor *)

Lemma reset_bound (c : static_any) (tr : trace) (f : function_ptr_t) :
  function_ c = Some f ->
  empty (fst (reset c tr)) = true /\
  size (fst (reset c tr)) = 0 /\
  snd (reset c tr) = tr ++ [destroyed (fn_type f) (as_ (plain (fn_type f)) c)].
Proof.
  intros Hf. unfold reset. rewrite destroy_this.
  rewrite (@destroy_log_bound c tr f Hf). repeat split; reflexivity.
Qed.

Lemma reset_idempotent (c : static_any) (tr : trace) :
  reset (fst (reset c tr)) (snd (reset c tr)) = reset c tr.
Proof.
  unfold reset, destroy.
  destruct (function_ c) as [f|] eqn:Hf; simpl; [reflexivity|].
  rewrite Hf. reflexivity.
Qed.

(** *** Assignment of a value whose constructor throws *)

Lemma call_copy_or_move_throw_copy (_T : qtype) (this_ptr t : bytes)
  (e : exception) :
  is_rvalue_reference (add_rvalue_reference _T) = false ->
  c_copy (cls (q_base _T)) (firstn (c_sizeof (cls (q_base _T))) t) = Throw e ->
  call_copy_or_move (add_rvalue_reference _T) this_ptr t = (Throw e, []).
Proof.
  intros Hr Hc. unfold call_copy_or_move, construct_through. rewrite Hr.
  unfold call, operation. rewrite get_function_for_type_base. simpl.
  assert (Hb : q_base (add_rvalue_reference _T) = q_base _T)
    by (unfold add_rvalue_reference; destruct (q_ref _T); reflexivity).
  rewrite Hb, Hc. reflexivity.
Qed.

Lemma call_copy_or_move_throw_move (_T : qtype) (this_ptr t : bytes)
  (e : exception) :
  is_rvalue_reference (add_rvalue_reference _T) = true ->
  c_move (cls (q_base _T)) (firstn (c_sizeof (cls (q_base _T))) t) = Throw e ->
  call_copy_or_move (add_rvalue_reference _T) this_ptr t = (Throw e, []).
Proof.
  intros Hr Hc. unfold call_copy_or_move, construct_through. rewrite Hr.
  unfold call, operation. rewrite get_function_for_type_base. simpl.
  assert (Hb : q_base (add_rvalue_reference _T) = q_base _T)
    by (unfold add_rvalue_reference; destruct (q_ref _T); reflexivity).
  rewrite Hb, Hc. reflexivity.
Qed.

(** An lvalue deduces [_T = U&]: [cannot_throw] is then [true] whatever [U]'s
    copy constructor does, no snapshot is taken, and a throwing copy leaves
    the container empty. *)
Lemma assign_lvalue_throw (U : type_id) (is_const : bool) (t : bytes)
  (c : static_any) (tr : trace) (e : exception) :
  c_copy (cls U) (firstn (c_sizeof (cls U)) t) = Throw e ->
  outcome (assign (deduce_forwarding U is_const lvalue) t c tr) = Throw e /\
  this (assign (deduce_forwarding U is_const lvalue) t c tr) = set_function c None.
Proof.
  intros Hc. unfold assign.
  rewrite (@call_copy_or_move_throw_copy (deduce_forwarding U is_const lvalue)
             (buff_ (fst (destroy c tr))) t e); [|reflexivity|exact Hc].
  simpl. rewrite destroy_this. split; reflexivity.
Qed.

(** An rvalue deduces [_T = U]: the snapshot is taken when [U] is not
    nothrow-copy-constructible, and a throwing move then puts back the
    bytes and the dispatcher of the old value, on which [destroy] has
    already run the destructor. *)
Lemma assign_rvalue_throw_restores (U : type_id) (t : bytes)
  (c : static_any) (tr : trace) (e : exception) :
  c_nothrow_copy (cls U) = false ->
  c_move (cls U) (firstn (c_sizeof (cls U)) t) = Throw e ->
  outcome (assign (deduce_forwarding U false rvalue) t c tr) = Throw e /\
  this (assign (deduce_forwarding U false rvalue) t c tr) = c /\
  log (assign (deduce_forwarding U false rvalue) t c tr) = snd (destroy c tr).
Proof.
  intros Hn Hc. unfold assign.
  rewrite (@call_copy_or_move_throw_move (deduce_forwarding U false rvalue)
             (buff_ (fst (destroy c tr))) t e); [|reflexivity|exact Hc].
  simpl. unfold is_nothrow_copy_constructible. simpl. rewrite Hn.
  rewrite destroy_this. split; [reflexivity|]. split.
  - destruct c; reflexivity.
  - apply app_nil_r.
Qed.

(** The restored value is destroyed a second time by the next [destroy]. *)
Lemma restored_value_destroyed_twice (U : type_id) (t : bytes)
  (c : static_any) (tr : trace) (e : exception) (f : function_ptr_t) :
  function_ c = Some f ->
  c_nothrow_copy (cls U) = false ->
  c_move (cls U) (firstn (c_sizeof (cls U)) t) = Throw e ->
  let r := assign (deduce_forwarding U false rvalue) t c tr in
  destructor (this r) (log r) =
  tr ++ [destroyed (fn_type f) (as_ (plain (fn_type f)) c);
         destroyed (fn_type f) (as_ (plain (fn_type f)) c)].
Proof.
  intros Hf Hn Hc r.
  destruct (@assign_rvalue_throw_restores U t c tr e Hn Hc) as [_ [Ht Hl]].
  unfold r, destructor. rewrite Ht, Hl.
  rewrite (@destroy_log_bound c _ f Hf), (@destroy_log_bound c tr f Hf).
  rewrite <- app_assoc. reflexivity.
Qed.

(** Construction from a container always goes through [move]. *)
Lemma copy_or_move_from_another_moves (another c : static_any) (tr : trace)
  (f : function_ptr_t) :
  function_ another = Some f ->
  log (copy_or_move_from_another another c tr) =
  tr ++ snd (call f operation_t.move (buff_ c) (buff_ another)).
Proof.
  intros Hf. unfold copy_or_move_from_another. rewrite Hf.
  unfold call_copy_or_move_fn, construct_through.
  match goal with
  | |- context [fst ?r] => destruct r as [[[b s]|e] evs]
  end; reflexivity.
Qed.

(** *** Where the header departs from its specification *)

(** C1 fails for every lvalue: the argument deduces [_T = U&], for which
    [cannot_throw] is [true] whatever [U]'s copy constructor does; no
    snapshot is taken, the held value is destroyed, and when the copy
    constructor throws the exception propagates out of a container that is
    left empty, no longer reporting the type it held. *)
Theorem assign_lvalue_copy_throws_loses_value (U : type_id) (t : bytes)
  (c : static_any) (tr : trace) (e : exception) (f : function_ptr_t) :
  function_ c = Some f ->
  c_sizeof (cls U) <= capacity c ->
  c_copy (cls U) (firstn (c_sizeof (cls U)) t) = Throw e ->
  exists r,
    operator_assign_value U false lvalue t c tr = Some r /\
    outcome r = Throw e /\
    empty (this r) = true /\
    type (this r) = typeid_void /\
    has (plain (fn_type f)) (this r) = false.
Proof.
  intros Hf Hfit Hc.
  destruct (@assign_lvalue_throw U false t c tr e Hc) as [Ho Ht].
  unfold operator_assign_value, fits, sizeof. simpl.
  apply Nat.leb_le in Hfit. rewrite Hfit.
  eexists. split; [reflexivity|]. rewrite Ho, Ht.
  split; [reflexivity|]. split; [reflexivity|]. split; [reflexivity|].
  apply has_false_of_empty. reflexivity.
Qed.

(** C2 fails on the restoring path: when the assigned rvalue is of a type
    that is not nothrow-copy-constructible and its constructor throws,
    [assign] has run the destructor of the held payload before putting its
    bytes and its dispatcher back, and the destructor of the container runs
    it again: two destructor calls for the one payload. *)
Theorem restored_payload_destroyed_twice (U : type_id) (t : bytes)
  (c : static_any) (tr : trace) (e : exception) (f : function_ptr_t) :
  function_ c = Some f ->
  c_sizeof (cls U) <= capacity c ->
  c_nothrow_copy (cls U) = false ->
  c_move (cls U) (firstn (c_sizeof (cls U)) t) = Throw e ->
  exists r,
    operator_assign_value U false rvalue t c tr = Some r /\
    outcome r = Throw e /\
    this r = c /\
    destructor (this r) (log r) =
    tr ++ [destroyed (fn_type f) (as_ (plain (fn_type f)) c);
           destroyed (fn_type f) (as_ (plain (fn_type f)) c)].
Proof.
  intros Hf Hfit Hn Hc.
  destruct (@assign_rvalue_throw_restores U t c tr e Hn Hc) as [Ho [Ht _]].
  pose proof (@restored_value_destroyed_twice U t c tr e f Hf Hn Hc) as Hd.
  unfold operator_assign_value, fits, sizeof. simpl.
  apply Nat.leb_le in Hfit. rewrite Hfit.
  eexists. split; [reflexivity|].
  split; [exact Ho|]. split; [exact Ht | exact Hd].
Qed.

(** C4 fails for every non-const lvalue source: [static_any(static_any<_M>&)]
    forwards it as an rvalue and [copy_or_move_from_another] calls the
    source's dispatcher with [move]; the payload of the destination is what
    the move constructor builds, the source keeps what the move constructor
    leaves, and no copy constructor runs.  The destination adopts the
    source's dispatcher. *)
Theorem construction_from_lvalue_container_moves (_N : nat)
  (another : static_any) (tr : trace) (f : function_ptr_t) (obj rest : bytes) :
  function_ another = Some f ->
  capacity another <= _N ->
  c_move (cls (fn_type f)) (as_ (plain (fn_type f)) another) = Ok (obj, rest) ->
  static_any_from_another _N lvalue_another another tr =
  Some {| outcome := Ok tt;
          this := {| capacity := _N;
                     buff_ := placement (repeat x00 _N) obj;
                     function_ := Some f |};
          source := set_buff another (placement (buff_ another) rest);
          log := tr ++ [constructed by_move (fn_type f) obj] |}.
Proof.
  intros Hf Hle Hm.
  unfold static_any_from_another. apply Nat.leb_le in Hle. rewrite Hle.
  erewrite copy_or_move_from_another_ok; [|exact Hf|exact Hm].
  reflexivity.
Qed.

(** *** Further properties of the header *)

Lemma length_placement (storage obj : bytes) :
  List.length obj <= List.length storage ->
  List.length (placement storage obj) = List.length storage.
Proof.
  intros H. unfold placement, memcpy.
  rewrite firstn_all, length_app, length_skipn. lia.
Qed.

Lemma skipn_placement (storage obj : bytes) :
  skipn (List.length obj) (placement storage obj)
  = skipn (List.length obj) storage.
Proof.
  unfold placement, memcpy. rewrite firstn_all.
  rewrite skipn_app, skipn_all, Nat.sub_diag. reflexivity.
Qed.

Lemma call_copy_or_move_chosen (T : type_id) (is_const : bool)
  (cat : value_category) (p v : bytes) :
  match chosen_constructor T cat v with
  | Ok obj =>
      exists v',
        call_copy_or_move (add_rvalue_reference (deduce_forwarding T is_const cat)) p v
        = (Ok (placement p obj, v'), [constructed (origin_of cat) T obj])
  | Throw e =>
      call_copy_or_move (add_rvalue_reference (deduce_forwarding T is_const cat)) p v
      = (Throw e, [])
  end.
Proof.
  unfold chosen_constructor, call_copy_or_move, construct_through, call, operation.
  rewrite get_function_for_type_base.
  destruct cat; simpl.
  - destruct (c_copy (cls T) (firstn (c_sizeof (cls T)) v)) as [obj|e]; simpl;
      [exists v; reflexivity | reflexivity].
  - destruct (c_move (cls T) (firstn (c_sizeof (cls T)) v)) as [[obj rest]|e];
      simpl; [eexists; reflexivity | reflexivity].
Qed.

Lemma observers_of_bound (c : static_any) (f : function_ptr_t) :
  function_ c = Some f ->
  empty c = false /\
  type c = typeid_of (fn_type f) /\
  size c = c_sizeof (cls (fn_type f)) /\
  has (plain (fn_type f)) c = true.
Proof.
  intros Hf. split; [eapply bound_not_empty; exact Hf|].
  split; [apply type_of_bound; exact Hf|]. split.
  - unfold size, empty, query_size. rewrite Hf. reflexivity.
  - apply has_spec. exists f. split; [exact Hf | reflexivity].
Qed.

(** X1: constructing a container of capacity [_N] from a value of a type
    that fits, when the selected constructor (copy for an lvalue, move for
    an rvalue) returns an object, gives a non-empty container with
    [has<T>()], [size() == sizeof(T)], [type() == typeid(T)], [get<T>()]
    the constructed object, exactly one construction in the trace, and a
    storage still of [_N] bytes. *)
Theorem construct_from_value_ok (_N : nat) (T : type_id) (is_const : bool)
  (cat : value_category) (v obj : bytes) (tr : trace) :
  c_sizeof (cls T) <= _N ->
  chosen_constructor T cat v = Ok obj ->
  List.length obj = c_sizeof (cls T) ->
  exists r,
    static_any_from_value _N T is_const cat v tr = Some r /\
    outcome r = Ok tt /\
    empty (this r) = false /\
    has (plain T) (this r) = true /\
    size (this r) = c_sizeof (cls T) /\
    type (this r) = typeid_of T /\
    get (plain T) (this r) = Ok obj /\
    capacity (this r) = _N /\
    List.length (buff_ (this r)) = _N /\
    log r = tr ++ [constructed (origin_of cat) T obj].
Proof.
  intros Hfit Hc Hlen.
  unfold static_any_from_value, fits, sizeof. simpl.
  apply Nat.leb_le in Hfit. rewrite Hfit.
  pose proof (call_copy_or_move_chosen T is_const cat
                (buff_ (static_any_default _N)) v) as Hcall.
  rewrite Hc in Hcall. destruct Hcall as [v' Hcall].
  unfold copy_or_move. rewrite Hcall. simpl.
  eexists. split; [reflexivity|]. simpl.
  rewrite get_function_for_type_base. simpl.
  set (c' := {| capacity := _N;
                buff_ := placement (repeat x00 _N) obj;
                function_ := Some {| fn_unit := here; fn_type := T |} |}).
  destruct (@observers_of_bound c' {| fn_unit := here; fn_type := T |} eq_refl)
    as [He [Ht [Hs Hh]]].
  split; [reflexivity|]. split; [exact He|]. split; [exact Hh|].
  split; [exact Hs|]. split; [exact Ht|]. split.
  - erewrite get_of_bound; [|reflexivity|reflexivity].
    unfold as_, sizeof. simpl. rewrite firstn_placement_eq; [reflexivity|exact Hlen].
  - split; [reflexivity|]. split; [|reflexivity].
    simpl. rewrite length_placement; rewrite repeat_length; [reflexivity|].
    apply Nat.leb_le in Hfit. lia.
Qed.

(** X2: a type larger than the capacity is rejected at compile time; and
    when the selected constructor throws, the exception leaves the
    constructor of the container, nothing was bound (the container under
    construction is still empty) and no payload was constructed. *)
Theorem construct_from_value_fails (_N : nat) (T : type_id) (is_const : bool)
  (cat : value_category) (v : bytes) (tr : trace) :
  (_N < c_sizeof (cls T) ->
   static_any_from_value _N T is_const cat v tr = None) /\
  (forall e,
     c_sizeof (cls T) <= _N ->
     chosen_constructor T cat v = Throw e ->
     exists r,
       static_any_from_value _N T is_const cat v tr = Some r /\
       outcome r = Throw e /\
       empty (this r) = true /\
       size (this r) = 0 /\
       type (this r) = typeid_void /\
       log r = tr).
Proof.
  unfold static_any_from_value, fits, sizeof. simpl. split.
  - intros Hlt. apply Nat.leb_gt in Hlt. rewrite Hlt. reflexivity.
  - intros e Hfit Hc. apply Nat.leb_le in Hfit. rewrite Hfit.
    pose proof (call_copy_or_move_chosen T is_const cat
                  (buff_ (static_any_default _N)) v) as Hcall.
    rewrite Hc in Hcall.
    unfold copy_or_move. rewrite Hcall. simpl.
    eexists. split; [reflexivity|]. simpl.
    repeat (split; [reflexivity|]). apply app_nil_r.
Qed.

(** X3: [reset()] on a container holding a value empties it ([empty()],
    [size() == 0], [type() == typeid(void)], no [has<T>()]), runs the
    payload's destructor once and keeps capacity and storage; on an empty
    container it changes nothing; and a second [reset()] changes nothing, so
    the destructor is not run again. *)
Theorem reset_empties_once (c : static_any) (tr : trace) (_T : qtype) :
  empty (fst (reset c tr)) = true /\
  size (fst (reset c tr)) = 0 /\
  type (fst (reset c tr)) = typeid_void /\
  has _T (fst (reset c tr)) = false /\
  capacity (fst (reset c tr)) = capacity c /\
  buff_ (fst (reset c tr)) = buff_ c /\
  (forall f, function_ c = Some f ->
     snd (reset c tr)
     = tr ++ [destroyed (fn_type f) (as_ (plain (fn_type f)) c)]) /\
  (empty c = true -> reset c tr = (c, tr)) /\
  reset (fst (reset c tr)) (snd (reset c tr)) = reset c tr.
Proof.
  pose proof (reset_idempotent c tr) as Hidem.
  assert (Hfst : fst (reset c tr) = set_function c None)
    by (unfold reset; apply destroy_this).
  rewrite Hfst.
  split; [reflexivity|]. split; [reflexivity|]. split; [reflexivity|].
  split; [apply has_false_of_empty; reflexivity|].
  split; [reflexivity|]. split; [reflexivity|]. split; [|split].
  - intros f Hf. unfold reset. apply destroy_log_bound. exact Hf.
  - unfold reset, empty, destroy.
    destruct (function_ c); [discriminate | reflexivity].
  - rewrite <- Hfst. exact Hidem.
Qed.

Lemma assign_chosen_ok (T : type_id) (is_const : bool) (cat : value_category)
  (v obj : bytes) (c : static_any) (tr : trace) :
  chosen_constructor T cat v = Ok obj ->
  outcome (assign (deduce_forwarding T is_const cat) v c tr) = Ok tt /\
  this (assign (deduce_forwarding T is_const cat) v c tr)
  = {| capacity := capacity c;
       buff_ := placement (buff_ c) obj;
       function_ := Some {| fn_unit := here; fn_type := T |} |} /\
  log (assign (deduce_forwarding T is_const cat) v c tr)
  = snd (destroy c tr) ++ [constructed (origin_of cat) T obj].
Proof.
  intros Hc.
  pose proof (call_copy_or_move_chosen T is_const cat
                (buff_ (fst (destroy c tr))) v) as Hcall.
  rewrite Hc in Hcall. destruct Hcall as [v' Hcall].
  unfold assign. rewrite Hcall. simpl.
  rewrite get_function_for_type_base, destroy_this. simpl.
  repeat split; reflexivity.
Qed.

Lemma assign_chosen_throw (T : type_id) (is_const : bool) (cat : value_category)
  (v : bytes) (c : static_any) (tr : trace) (e : exception) :
  chosen_constructor T cat v = Throw e ->
  outcome (assign (deduce_forwarding T is_const cat) v c tr) = Throw e /\
  this (assign (deduce_forwarding T is_const cat) v c tr)
  = (if match cat with
        | lvalue => true
        | rvalue => c_nothrow_copy (cls T)
        end
     then set_function c None else c) /\
  log (assign (deduce_forwarding T is_const cat) v c tr) = snd (destroy c tr).
Proof.
  intros Hc.
  pose proof (call_copy_or_move_chosen T is_const cat
                (buff_ (fst (destroy c tr))) v) as Hcall.
  rewrite Hc in Hcall.
  unfold assign. rewrite Hcall. simpl.
  rewrite destroy_this.
  split; [reflexivity|]. split; [|apply app_nil_r].
  unfold is_nothrow_copy_constructible.
  destruct cat; simpl; [reflexivity|].
  destruct (c_nothrow_copy (cls T)); [reflexivity|].
  destruct c; reflexivity.
Qed.

(** X4: a value assignment whose selected constructor returns: the held
    payload, if any, is destroyed exactly once, then exactly one new payload
    is constructed; afterwards the container has the new type, [get<T>()]
    is the constructed object, capacity and storage size are kept, and the
    previously held type is no longer reported when it differs from [T]. *)
Theorem assign_value_ok (T : type_id) (cat : value_category) (v obj : bytes)
  (c : static_any) (tr : trace) :
  c_sizeof (cls T) <= capacity c ->
  List.length (buff_ c) = capacity c ->
  chosen_constructor T cat v = Ok obj ->
  List.length obj = c_sizeof (cls T) ->
  exists r,
    operator_assign_value T false cat v c tr = Some r /\
    outcome r = Ok tt /\
    has (plain T) (this r) = true /\
    type (this r) = typeid_of T /\
    size (this r) = c_sizeof (cls T) /\
    get (plain T) (this r) = Ok obj /\
    capacity (this r) = capacity c /\
    List.length (buff_ (this r)) = capacity c /\
    (empty c = true -> log r = tr ++ [constructed (origin_of cat) T obj]) /\
    (forall f, function_ c = Some f ->
       log r = tr ++ [destroyed (fn_type f) (as_ (plain (fn_type f)) c);
                      constructed (origin_of cat) T obj] /\
       (fn_type f <> T -> has (plain (fn_type f)) (this r) = false)).
Proof.
  intros Hfit Hwf Hc Hlen.
  destruct (@assign_chosen_ok T false cat v obj c tr Hc) as [Ho [Ht Hl]].
  assert (Hsome : operator_assign_value T false cat v c tr
                  = Some (assign (deduce_forwarding T false cat) v c tr)).
  { unfold operator_assign_value, fits, sizeof. simpl.
    apply Nat.leb_le in Hfit. rewrite Hfit. destruct cat; reflexivity. }
  eexists. split; [exact Hsome|]. rewrite Ho, Ht, Hl.
  set (c' := {| capacity := capacity c;
                buff_ := placement (buff_ c) obj;
                function_ := Some {| fn_unit := here; fn_type := T |} |}).
  destruct (@observers_of_bound c' {| fn_unit := here; fn_type := T |} eq_refl)
    as [_ [Hty [Hs Hh]]].
  split; [reflexivity|]. split; [exact Hh|]. split; [exact Hty|].
  split; [exact Hs|]. split.
  { erewrite get_of_bound; [|reflexivity|reflexivity].
    unfold as_, sizeof. simpl.
    rewrite firstn_placement_eq; [reflexivity | exact Hlen]. }
  split; [reflexivity|]. split.
  { simpl. rewrite length_placement; lia. }
  split.
  - intros He. rewrite destroy_log_empty; [reflexivity|].
    unfold empty in He. destruct (function_ c); [discriminate | reflexivity].
  - intros f Hf. split.
    + rewrite (@destroy_log_bound c tr f Hf), <- app_assoc. reflexivity.
    + intros Hne. destruct (has (plain (fn_type f)) c') eqn:Hh'; [|reflexivity].
      apply has_spec in Hh'. destruct Hh' as [g [Hg Hgt]].
      inversion Hg; subst g. simpl in Hgt. congruence.
Qed.

(** X5: a value assignment whose selected constructor throws: the exception
    propagates and no payload is constructed; an empty container stays
    empty; for an rvalue of a type that is not nothrow-copy-constructible
    the container is exactly what it was (same storage, same dispatcher, so
    same [type()] and same [get]); for an rvalue of a type that is
    nothrow-copy-constructible (its move constructor threw) nothing is put
    back and the container is empty. *)
Theorem assign_value_throws (T : type_id) (cat : value_category) (v : bytes)
  (c : static_any) (tr : trace) (e : exception) :
  c_sizeof (cls T) <= capacity c ->
  chosen_constructor T cat v = Throw e ->
  exists r,
    operator_assign_value T false cat v c tr = Some r /\
    outcome r = Throw e /\
    log r = snd (destroy c tr) /\
    (empty c = true -> this r = c) /\
    (cat = rvalue -> c_nothrow_copy (cls T) = false -> this r = c) /\
    (cat = rvalue -> c_nothrow_copy (cls T) = true ->
     this r = set_function c None /\ empty (this r) = true).
Proof.
  intros Hfit Hc.
  destruct (@assign_chosen_throw T false cat v c tr e Hc) as [Ho [Ht Hl]].
  assert (Hsome : operator_assign_value T false cat v c tr
                  = Some (assign (deduce_forwarding T false cat) v c tr)).
  { unfold operator_assign_value, fits, sizeof. simpl.
    apply Nat.leb_le in Hfit. rewrite Hfit. destruct cat; reflexivity. }
  eexists. split; [exact Hsome|]. rewrite Ho, Ht, Hl.
  split; [reflexivity|]. split; [reflexivity|]. split; [|split].
  - intros He. unfold empty in He.
    destruct c as [n b [f|]]; [discriminate|].
    destruct cat; [reflexivity|].
    destruct (c_nothrow_copy (cls T)); reflexivity.
  - intros -> Hn. rewrite Hn. reflexivity.
  - intros -> Hn. rewrite Hn. split; reflexivity.
Qed.

(** The constructor that a container argument selects in
    [assign_from_another]: copy for the lvalue forms, move for an rvalue. *)
Lemma construct_through_cases (f : function_ptr_t) (moving : bool)
  (p q : bytes) :
  construct_through f moving p q =
  if moving
  then match c_move (cls (fn_type f)) (firstn (c_sizeof (cls (fn_type f))) q) with
       | Ok (obj, rest) =>
           (Ok (placement p obj, placement q rest),
            [constructed by_move (fn_type f) obj])
       | Throw e => (Throw e, [])
       end
  else match c_copy (cls (fn_type f)) (firstn (c_sizeof (cls (fn_type f))) q) with
       | Ok obj => (Ok (placement p obj, q), [constructed by_copy (fn_type f) obj])
       | Throw e => (Throw e, [])
       end.
Proof.
  unfold construct_through, call, operation. destruct moving.
  - destruct (c_move (cls (fn_type f)) (firstn (c_sizeof (cls (fn_type f))) q))
      as [[obj rest]|e]; reflexivity.
  - destruct (c_copy (cls (fn_type f)) (firstn (c_sizeof (cls (fn_type f))) q))
      as [obj|e]; reflexivity.
Qed.

Lemma construct_through_another (a : another_arg) (f : function_ptr_t)
  (p : bytes) (another : static_any) :
  match another_constructor a f (as_ (plain (fn_type f)) another) with
  | Ok obj =>
      exists s,
        construct_through f (another_is_rvalue a) p (buff_ another)
        = (Ok (placement p obj, s),
           [constructed (if another_is_rvalue a then by_move else by_copy)
              (fn_type f) obj]) /\
        (another_is_rvalue a = false -> s = buff_ another)
  | Throw e =>
      construct_through f (another_is_rvalue a) p (buff_ another) = (Throw e, [])
  end.
Proof.
  unfold another_constructor, as_, sizeof. simpl.
  rewrite construct_through_cases.
  destruct (another_is_rvalue a).
  - destruct (c_move (cls (fn_type f))
                (firstn (c_sizeof (cls (fn_type f))) (buff_ another)))
      as [[obj rest]|e]; [|reflexivity].
    eexists. split; [reflexivity | discriminate].
  - destruct (c_copy (cls (fn_type f))
                (firstn (c_sizeof (cls (fn_type f))) (buff_ another)))
      as [obj|e]; [|reflexivity].
    eexists. split; reflexivity.
Qed.

Lemma assign_from_another_on_throw (a : another_arg) (another c : static_any)
  (tr : trace) (f : function_ptr_t) (e : exception) :
  function_ another = Some f ->
  another_constructor a f (as_ (plain (fn_type f)) another) = Throw e ->
  outcome (assign_from_another a another c tr) = Throw e /\
  source (assign_from_another a another c tr) = another /\
  log (assign_from_another a another c tr) = snd (destroy c tr) /\
  (query_noexcept another = Some false ->
   this (assign_from_another a another c tr) = c) /\
  (query_noexcept another = Some true ->
   this (assign_from_another a another c tr) = set_function c None /\
   empty (this (assign_from_another a another c tr)) = true).
Proof.
  intros Hf Hthrow.
  pose proof (construct_through_another a f (buff_ (fst (destroy c tr))) another)
    as Hr.
  rewrite Hthrow in Hr.
  unfold assign_from_another, query_noexcept. rewrite Hf, Hr. simpl.
  rewrite destroy_this.
  split; [reflexivity|]. split; [reflexivity|]. split; [apply app_nil_r|].
  split.
  - intros Hq. inversion Hq as [Hq']. rewrite Hq'. destruct c; reflexivity.
  - intros Hq. inversion Hq as [Hq']. rewrite Hq'. split; reflexivity.
Qed.

Lemma assign_from_another_on_return (a : another_arg) (another c : static_any)
  (tr : trace) (f : function_ptr_t) (obj : bytes) :
  function_ another = Some f ->
  another_constructor a f (as_ (plain (fn_type f)) another) = Ok obj ->
  List.length obj = c_sizeof (cls (fn_type f)) ->
  c_sizeof (cls (fn_type f)) <= List.length (buff_ c) ->
  let r := assign_from_another a another c tr in
  outcome r = Ok tt /\
  function_ (this r) = Some f /\
  capacity (this r) = capacity c /\
  List.length (buff_ (this r)) = List.length (buff_ c) /\
  type (this r) = type another /\
  size (this r) = size another /\
  has (plain (fn_type f)) (this r) = true /\
  get (plain (fn_type f)) (this r) = Ok obj /\
  log r = snd (destroy c tr)
          ++ [constructed (if another_is_rvalue a then by_move else by_copy)
                (fn_type f) obj] /\
  (forall g, function_ c = Some g ->
     log r = tr ++ [destroyed (fn_type g) (as_ (plain (fn_type g)) c);
                    constructed (if another_is_rvalue a then by_move else by_copy)
                      (fn_type f) obj]).
Proof.
  intros Hf Hok Hlen Hroom r.
  pose proof (construct_through_another a f (buff_ (fst (destroy c tr))) another)
    as Hr.
  rewrite Hok in Hr. destruct Hr as [s [Hr _]].
  set (c' := {| capacity := capacity c;
                buff_ := placement (buff_ c) obj;
                function_ := Some f |}).
  assert (Heq : r = {| outcome := Ok tt; this := c';
                       source := set_buff another s;
                       log := snd (destroy c tr)
                              ++ [constructed
                                    (if another_is_rvalue a then by_move else by_copy)
                                    (fn_type f) obj] |}).
  { unfold r, assign_from_another. rewrite Hf, Hr. simpl.
    rewrite destroy_this. reflexivity. }
  rewrite Heq. cbn [outcome this source log].
  destruct (@observers_of_bound c' f eq_refl) as [_ [Hty [Hs Hh]]].
  destruct (@observers_of_bound another f Hf) as [_ [Hty' [Hs' _]]].
  split; [reflexivity|]. split; [reflexivity|]. split; [reflexivity|].
  split; [simpl; apply length_placement; lia|].
  split; [rewrite Hty, Hty'; reflexivity|].
  split; [rewrite Hs, Hs'; reflexivity|]. split; [exact Hh|].
  split.
  { erewrite get_of_bound; [|reflexivity|reflexivity].
    unfold as_, sizeof. simpl.
    rewrite firstn_placement_eq; [reflexivity | exact Hlen]. }
  split; [reflexivity|].
  intros g Hg. rewrite (@destroy_log_bound c tr g Hg), <- app_assoc. reflexivity.
Qed.

(** X8: construction from a container.  A source of larger capacity is
    rejected at compile time; an empty source gives an empty container and
    constructs nothing; a source whose payload's move constructor throws
    lets the exception out, with the new container still empty, the source
    untouched and nothing constructed. *)
Theorem construct_from_another_edge_cases (_N : nat) (a : another_arg)
  (another : static_any) (tr : trace) :
  (_N < capacity another -> static_any_from_another _N a another tr = None) /\
  (forall r,
     function_ another = None ->
     static_any_from_another _N a another tr = Some r ->
     outcome r = Ok tt /\ empty (this r) = true /\
     capacity (this r) = _N /\ source r = another /\ log r = tr) /\
  (forall f e r,
     a <> const_lvalue_another ->
     function_ another = Some f ->
     c_move (cls (fn_type f)) (as_ (plain (fn_type f)) another) = Throw e ->
     static_any_from_another _N a another tr = Some r ->
     outcome r = Throw e /\ this r = static_any_default _N /\
     source r = another /\ log r = tr).
Proof.
  split; [|split].
  - intros Hlt. unfold static_any_from_another.
    assert (H1 : (capacity another =? _N) = false) by (apply Nat.eqb_neq; lia).
    assert (H2 : (capacity another <=? _N) = false) by (apply Nat.leb_gt; lia).
    rewrite H1, H2. destruct a; reflexivity.
  - intros r Hf. unfold static_any_from_another, copy_or_move_from_another.
    rewrite Hf.
    destruct a; [destruct (capacity another =? _N)|
                 destruct (capacity another <=? _N)|
                 destruct (capacity another <=? _N)];
      try discriminate; intros H; inversion H; subst r; simpl;
      unfold empty; simpl; rewrite ?Hf; repeat split; reflexivity.
  - intros f e r Ha Hf Hm.
    assert (Hc : copy_or_move_from_another another (static_any_default _N) tr
                 = {| outcome := Throw e; this := static_any_default _N;
                      source := another; log := tr |}).
    { unfold copy_or_move_from_another. rewrite Hf.
      unfold call_copy_or_move_fn. rewrite construct_through_cases.
      unfold as_, sizeof in Hm. simpl in Hm. rewrite Hm. simpl.
      rewrite app_nil_r. reflexivity. }
    unfold static_any_from_another. rewrite Hc.
    destruct a; [contradiction| |];
      (destruct (capacity another <=? _N); [|discriminate]);
      intros H; inversion H; subst r; simpl; repeat split; reflexivity.
Qed.

Lemma destructor_of_empty (c : static_any) (tr : trace) :
  function_ c = None -> destructor c tr = tr.
Proof. intros H. unfold destructor. apply destroy_log_empty. exact H. Qed.

Lemma emplace_ok_not_kept (_T : qtype) (obj : bytes) (c : static_any)
  (tr : trace) :
  negb (empty c) &&
    match query_noexcept c with Some b => b | None => false end = false ->
  emplace_steps _T (Ok obj) c tr =
  {| outcome := Ok tt;
     this := {| capacity := capacity c;
                buff_ := placement (buff_ c) obj;
                function_ := Some (get_function_for_type _T) |};
     source := tt;
     log := snd (destroy c tr) ++ [constructed by_args (q_base _T) obj] |}.
Proof.
  intros Hk. unfold emplace_steps. rewrite Hk. simpl.
  rewrite destroy_this, destructor_of_empty; reflexivity.
Qed.

Lemma emplace_ok_kept (_T : qtype) (obj : bytes) (c : static_any)
  (tr : trace) (f : function_ptr_t) (x rest : bytes) :
  function_ c = Some f ->
  query_noexcept c = Some true ->
  c_move (cls (fn_type f)) (as_ (plain (fn_type f)) c) = Ok (x, rest) ->
  emplace_steps _T (Ok obj) c tr =
  {| outcome := Ok tt;
     this := {| capacity := capacity c;
                buff_ := placement (placement (buff_ c) rest) obj;
                function_ := Some (get_function_for_type _T) |};
     source := tt;
     log := tr ++ [constructed by_move (fn_type f) x;
                   destroyed (fn_type f)
                     (firstn (c_sizeof (cls (fn_type f)))
                        (placement (buff_ c) rest));
                   constructed by_args (q_base _T) obj;
                   destroyed (fn_type f)
                     (firstn (c_sizeof (cls (fn_type f)))
                        (placement (repeat x00 (capacity c)) x))] |}.
Proof.
  intros Hf Hq Hm. unfold emplace_steps. rewrite Hq.
  erewrite bound_not_empty by exact Hf. simpl.
  erewrite assign_from_another_move_ok; [|exact Hf|exact Hm]. simpl.
  unfold destructor, destroy. simpl. rewrite Hf. simpl.
  unfold set_function, set_buff. simpl.
  rewrite <- !app_assoc. reflexivity.
Qed.

Lemma emplace_steps_ok (_T : qtype) (obj : bytes) (c : static_any) (tr : trace) :
  List.length obj = sizeof _T ->
  (forall f, function_ c = Some f -> query_noexcept c = Some true ->
     exists x rest,
       c_move (cls (fn_type f)) (as_ (plain (fn_type f)) c) = Ok (x, rest)) ->
  let r := emplace_steps _T (Ok obj) c tr in
  (outcome r = Ok tt /\
   function_ (this r) = Some (get_function_for_type _T) /\
   capacity (this r) = capacity c /\
   has _T (this r) = true /\
   type (this r) = typeid _T /\
   size (this r) = sizeof _T /\
   get (plain (q_base _T)) (this r) = Ok obj) /\
  (empty c = true ->
   log r = tr ++ [constructed by_args (q_base _T) obj]) /\
  (forall f, function_ c = Some f -> query_noexcept c = Some false ->
     log r = tr ++ [destroyed (fn_type f) (as_ (plain (fn_type f)) c);
                    constructed by_args (q_base _T) obj]) /\
  (forall f x rest,
     function_ c = Some f -> query_noexcept c = Some true ->
     c_move (cls (fn_type f)) (as_ (plain (fn_type f)) c) = Ok (x, rest) ->
     List.length x = c_sizeof (cls (fn_type f)) ->
     List.length rest = c_sizeof (cls (fn_type f)) ->
     log r = tr ++ [constructed by_move (fn_type f) x;
                    destroyed (fn_type f) rest;
                    constructed by_args (q_base _T) obj;
                    destroyed (fn_type f) x]).
Proof.
  intros Hlen Hmove r.
  assert (Hpost : forall b l,
            r = {| outcome := Ok tt;
                   this := {| capacity := capacity c;
                              buff_ := placement b obj;
                              function_ := Some (get_function_for_type _T) |};
                   source := tt; log := l |} ->
            outcome r = Ok tt /\
            function_ (this r) = Some (get_function_for_type _T) /\
            capacity (this r) = capacity c /\
            has _T (this r) = true /\
            type (this r) = typeid _T /\
            size (this r) = sizeof _T /\
            get (plain (q_base _T)) (this r) = Ok obj).
  { intros b l ->. cbn [outcome this].
    set (c' := {| capacity := capacity c; buff_ := placement b obj;
                  function_ := Some (get_function_for_type _T) |}).
    assert (Hft : fn_type (get_function_for_type _T) = q_base _T)
      by (rewrite get_function_for_type_base; reflexivity).
    destruct (@observers_of_bound c' (get_function_for_type _T) eq_refl)
      as [_ [Hty [Hs _]]].
    rewrite Hft in Hty, Hs.
    split; [reflexivity|]. split; [reflexivity|]. split; [reflexivity|].
    split; [apply has_spec; eexists; split; [reflexivity | exact Hft]|].
    split; [exact Hty|]. split; [exact Hs|].
    erewrite get_of_bound; [|reflexivity|exact Hft].
    unfold as_, sizeof. simpl.
    rewrite firstn_placement_eq; [reflexivity | exact Hlen]. }
  assert (Hcases :
            negb (empty c) &&
              match query_noexcept c with Some b => b | None => false end = false
            \/ exists f, function_ c = Some f /\ query_noexcept c = Some true).
  { unfold empty. destruct (function_ c) as [f|] eqn:Hf.
    - destruct (query_noexcept c) as [[|]|] eqn:Hq.
      + right. exists f. split; reflexivity.
      + left. reflexivity.
      + left. reflexivity.
    - left. reflexivity. }
  split; [|split; [|split]].
  - destruct Hcases as [Hk | [f [Hf Hq]]].
    + eapply Hpost. unfold r. apply emplace_ok_not_kept. exact Hk.
    + destruct (Hmove f Hf Hq) as [x [rest Hm]].
      eapply Hpost. unfold r. eapply emplace_ok_kept; eassumption.
  - intros He. unfold r. rewrite emplace_ok_not_kept.
    + simpl. rewrite destroy_log_empty; [reflexivity|].
      unfold empty in He. destruct (function_ c); [discriminate | reflexivity].
    + rewrite He. reflexivity.
  - intros f Hf Hq. unfold r. rewrite emplace_ok_not_kept.
    + simpl. rewrite (@destroy_log_bound c tr f Hf), <- app_assoc. reflexivity.
    + rewrite Hq. apply andb_false_r.
  - intros f x rest Hf Hq Hm Hx Hrest. unfold r.
    erewrite emplace_ok_kept; [|exact Hf|exact Hq|exact Hm]. simpl.
    rewrite !firstn_placement_eq by assumption. reflexivity.
Qed.

(** X10: the pointer cast is null exactly when [has<T>()] is false and never
    throws; it points to an object exactly when the reference cast returns
    that object; and the const overloads of both casts behave as the
    non-const ones. *)
Theorem casts_agree (_T : qtype) (c : static_any) :
  (any_cast_ptr _T c = Ok None <-> has _T c = false) /\
  (forall e, any_cast_ptr _T c <> Throw e) /\
  (forall x, any_cast_ptr _T c = Ok (Some x) <-> any_cast_ref _T c = Ok x) /\
  (has _T c = true -> any_cast_ref _T c = Ok (as_ _T c)) /\
  any_cast_const_ptr _T c = any_cast_ptr _T c /\
  any_cast_const_ref _T c = any_cast_ref _T c /\
  get_const _T c = get _T c.
Proof.
  assert (Hb : q_base (add_const _T) = q_base _T)
    by (unfold add_const; destruct (q_ref _T); reflexivity).
  assert (Hh : has (add_const _T) c = has _T c)
    by (apply has_ignores_qualifiers; exact Hb).
  assert (Has : as_ (add_const _T) c = as_ _T c)
    by (unfold as_, sizeof; rewrite Hb; reflexivity).
  assert (Hty : typeid (add_const _T) = typeid _T)
    by (unfold typeid; rewrite Hb; reflexivity).
  assert (Hcr : any_cast_const_ref _T c = any_cast_ref _T c)
    by (unfold any_cast_const_ref, any_cast_ref; rewrite Hh, Has, Hty; reflexivity).
  unfold any_cast_const_ptr, get_const, get, any_cast_ptr, any_cast_ref in *.
  rewrite Hh, Has.
  destruct (has _T c); simpl.
  - split; [split; discriminate|]. split; [discriminate|].
    split; [intros x; split; intros H; inversion H; reflexivity|].
    repeat split; try reflexivity; exact Hcr.
  - split; [split; reflexivity|]. split; [discriminate|].
    split; [intros x; split; discriminate|].
    split; [discriminate|]. repeat split; try reflexivity; exact Hcr.
Qed.

(** X11: the observers agree with one another: a container is empty exactly
    when [type()] is [typeid(void)], and then [size()] is [0] and no
    [has<T>()] holds; [has<T>()] implies non-empty, [type() == typeid(T)]
    and [size() == sizeof(T)]; a container has at most one type, and a
    non-empty one has one. *)
Theorem observers_consistent (c : static_any) (_T _U : qtype) :
  (empty c = true <-> type c = typeid_void) /\
  (empty c = true -> size c = 0 /\ has _T c = false) /\
  (has _T c = true ->
   empty c = false /\ type c = typeid _T /\ size c = sizeof _T) /\
  (has _T c = true -> has _U c = true -> q_base _T = q_base _U) /\
  (empty c = false -> exists T, has (plain T) c = true /\ type c = typeid_of T).
Proof.
  split; [|split; [|split; [|split]]].
  - split; [apply type_of_empty|].
    unfold type, empty, query_type.
    destruct (function_ c); [discriminate | reflexivity].
  - intros He. split; [|apply has_false_of_empty; exact He].
    unfold size. rewrite He. reflexivity.
  - intros Hh. apply has_spec in Hh. destruct Hh as [f [Hf Ht]].
    destruct (@observers_of_bound c f Hf) as [He [Hty [Hs _]]].
    split; [exact He|]. unfold typeid, sizeof. rewrite <- Ht.
    split; [exact Hty | exact Hs].
  - intros H1 H2. apply has_spec in H1, H2.
    destruct H1 as [f [Hf Ht]], H2 as [g [Hg Hu]].
    rewrite Hf in Hg. inversion Hg; subst g. congruence.
  - intros He. unfold empty in He.
    destruct (function_ c) as [f|] eqn:Hf; [|discriminate].
    exists (fn_type f).
    destruct (@observers_of_bound c f Hf) as [_ [Hty [_ Hh]]].
    split; [exact Hh | exact Hty].
Qed.

Lemma static_any_from_value_ok_eq (_N : nat) (T : type_id) (is_const : bool)
  (cat : value_category) (v obj : bytes) (tr : trace) :
  c_sizeof (cls T) <= _N ->
  chosen_constructor T cat v = Ok obj ->
  exists v',
    static_any_from_value _N T is_const cat v tr =
    Some {| outcome := Ok tt;
            this := {| capacity := _N;
                       buff_ := placement (repeat x00 _N) obj;
                       function_ := Some {| fn_unit := here; fn_type := T |} |};
            source := v';
            log := tr ++ [constructed (origin_of cat) T obj] |}.
Proof.
  intros Hfit Hc.
  unfold static_any_from_value, fits, sizeof. simpl.
  apply Nat.leb_le in Hfit. rewrite Hfit.
  pose proof (call_copy_or_move_chosen T is_const cat
                (buff_ (static_any_default _N)) v) as Hcall.
  rewrite Hc in Hcall. destruct Hcall as [v' Hcall].
  exists v'. unfold copy_or_move. rewrite Hcall. simpl.
  rewrite get_function_for_type_base. reflexivity.
Qed.

(** X12: on the paths without a throw every payload constructed in a
    container is destroyed exactly once, in order: a container built from a
    value and destroyed gives one construction and one destruction of that
    value; with a value assignment in between, the first payload is
    destroyed by the assignment and the second by the destructor. *)
Theorem lifetime_destroys_each_payload_once (_N : nat)
  (T1 : type_id) (const1 : bool) (cat1 : value_category) (v1 obj1 : bytes)
  (T2 : type_id) (cat2 : value_category) (v2 obj2 : bytes) :
  c_sizeof (cls T1) <= _N ->
  c_sizeof (cls T2) <= _N ->
  chosen_constructor T1 cat1 v1 = Ok obj1 ->
  List.length obj1 = c_sizeof (cls T1) ->
  chosen_constructor T2 cat2 v2 = Ok obj2 ->
  List.length obj2 = c_sizeof (cls T2) ->
  construct_destroy _N T1 const1 cat1 v1
  = Some (Ok tt, [constructed (origin_of cat1) T1 obj1; destroyed T1 obj1]) /\
  construct_assign_destroy _N T1 const1 cat1 v1 T2 false cat2 v2
  = Some (Ok tt, [constructed (origin_of cat1) T1 obj1;
                  destroyed T1 obj1;
                  constructed (origin_of cat2) T2 obj2;
                  destroyed T2 obj2]).
Proof.
  intros Hfit1 Hfit2 Hc1 Hlen1 Hc2 Hlen2.
  destruct (@static_any_from_value_ok_eq _N T1 const1 cat1 v1 obj1 [] Hfit1 Hc1)
    as [v' Hbuilt].
  split.
  - unfold construct_destroy. rewrite Hbuilt. simpl.
    unfold destructor, destroy, call, operation. simpl.
    rewrite firstn_placement_eq by exact Hlen1. reflexivity.
  - unfold construct_assign_destroy. rewrite Hbuilt. cbn [this log].
    set (c1 := {| capacity := _N;
                  buff_ := placement (repeat x00 _N) obj1;
                  function_ := Some {| fn_unit := here; fn_type := T1 |} |}).
    destruct (@assign_chosen_ok T2 false cat2 v2 obj2 c1
                ([] ++ [constructed (origin_of cat1) T1 obj1]) Hc2)
      as [Ho [Ht Hl]].
    assert (Hsome : operator_assign_value T2 false cat2 v2 c1
                      ([] ++ [constructed (origin_of cat1) T1 obj1])
                    = Some (assign (deduce_forwarding T2 false cat2) v2 c1
                              ([] ++ [constructed (origin_of cat1) T1 obj1]))).
    { unfold operator_assign_value, fits, sizeof. simpl.
      apply Nat.leb_le in Hfit2. rewrite Hfit2. destruct cat2; reflexivity. }
    rewrite Hsome, Ho, Ht, Hl.
    unfold destructor, destroy, call, operation. simpl.
    rewrite !firstn_placement_eq by assumption. reflexivity.
Qed.

(** X15: a move assignment does not end the life of the source's payload:
    the source keeps a moved-from object, which its own destructor
    destroys.  Destroying the source and then the destination after a move
    assignment runs one destructor for the moved-from object and one for
    the moved-to object, after the one for the destination's old payload. *)
Theorem moved_from_payload_is_destroyed_by_source (another c : static_any)
  (tr : trace) (f : function_ptr_t) (obj rest : bytes) :
  function_ another = Some f ->
  c_move (cls (fn_type f)) (as_ (plain (fn_type f)) another) = Ok (obj, rest) ->
  List.length obj = c_sizeof (cls (fn_type f)) ->
  List.length rest = c_sizeof (cls (fn_type f)) ->
  let r := assign_from_another rvalue_another another c tr in
  outcome r = Ok tt /\
  as_ (plain (fn_type f)) (source r) = rest /\
  as_ (plain (fn_type f)) (this r) = obj /\
  destructor (this r) (destructor (source r) (log r))
  = snd (destroy c tr)
    ++ [constructed by_move (fn_type f) obj;
        destroyed (fn_type f) rest;
        destroyed (fn_type f) obj].
Proof.
  intros Hf Hm Hlo Hlr r. unfold r.
  erewrite assign_from_another_move_ok; [|exact Hf|exact Hm].
  cbn [outcome this source log].
  unfold as_, sizeof. simpl.
  rewrite !firstn_placement_eq by assumption.
  split; [reflexivity|]. split; [reflexivity|]. split; [reflexivity|].
  unfold destructor, destroy, call, operation. simpl. rewrite Hf. simpl.
  rewrite !firstn_placement_eq by assumption.
  rewrite <- !app_assoc. reflexivity.
Qed.

(** *** [emplace] *)

Lemma emplace_steps_move_back_throws (_T : qtype) (e e' : exception)
  (c : static_any) (tr : trace) (f : function_ptr_t) (x rest : bytes) :
  function_ c = Some f ->
  query_noexcept c = Some true ->
  c_move (cls (fn_type f)) (as_ (plain (fn_type f)) c) = Ok (x, rest) ->
  List.length x = c_sizeof (cls (fn_type f)) ->
  c_move (cls (fn_type f)) x = Throw e' ->
  outcome (emplace_steps _T (Throw e) c tr) = Throw e' /\
  empty (this (emplace_steps _T (Throw e) c tr)) = true.
Proof.
  intros Hf Hq Hm Hlen Hback.
  unfold emplace_steps. rewrite Hq. erewrite bound_not_empty by exact Hf. simpl.
  erewrite assign_from_another_move_ok; [|exact Hf|exact Hm]. simpl.
  set (old := {| capacity := capacity c;
                 buff_ := placement (repeat x00 (capacity c)) x;
                 function_ := Some f |}).
  assert (Hold : c_move (cls (fn_type f)) (as_ (plain (fn_type f)) old) = Throw e').
  { unfold as_, sizeof. simpl.
    rewrite firstn_placement_eq; [exact Hback | exact Hlen]. }
  destruct (@assign_from_another_move_throw old
              (fst (destroy (set_buff c (placement (buff_ c) rest))
                      (tr ++ [constructed by_move (fn_type f) x])))
              (snd (destroy (set_buff c (placement (buff_ c) rest))
                      (tr ++ [constructed by_move (fn_type f) x])))
              f e' eq_refl Hold) as [Ho _].
  rewrite Ho. split; [reflexivity|].
  unfold assign_from_another. simpl.
  unfold construct_through, call, operation. simpl.
  unfold as_, sizeof in Hold. simpl in Hold. rewrite Hold. simpl.
  unfold query_noexcept in Hq. rewrite Hf in Hq. inversion Hq as [Hq'].
  unfold call, operation in Hq'. simpl in Hq'. rewrite Hq'.
  rewrite !destroy_this. reflexivity.
Qed.

(** C5, as the code has it: [emplace<T>(args...)] whose constructor throws
    always returns by an exception.  If the container held a value whose
    dispatcher reports the no-throw guarantee and whose move constructor
    hands the value over, the constructor's exception propagates and the
    container holds that value, with its type, again; had moving the old
    value aside thrown, that exception propagates and the container is
    untouched; when moving the old value back throws, that exception
    propagates and the container is empty.  If the dispatcher of the old
    value does not report the guarantee, the constructor's exception
    propagates and the container is empty; if the container was empty, the
    exception propagates and it is empty. *)
Theorem emplace_constructor_throws (_T : qtype) (e : exception)
  (c : static_any) (tr : trace) :
  exists r,
    emplace _T (Throw e) c tr = Some r /\
    (exists e', outcome r = Throw e') /\
    (forall f x rest,
       function_ c = Some f ->
       query_noexcept c = Some true ->
       as_ (plain (fn_type f)) c = x ->
       List.length x = c_sizeof (cls (fn_type f)) ->
       c_move (cls (fn_type f)) x = Ok (x, rest) ->
       outcome r = Throw e /\
       function_ (this r) = Some f /\
       type (this r) = type c /\
       as_ (plain (fn_type f)) (this r) = x) /\
    (forall f e',
       function_ c = Some f ->
       query_noexcept c = Some true ->
       c_move (cls (fn_type f)) (as_ (plain (fn_type f)) c) = Throw e' ->
       outcome r = Throw e' /\ this r = c) /\
    (forall f x rest e',
       function_ c = Some f ->
       query_noexcept c = Some true ->
       c_move (cls (fn_type f)) (as_ (plain (fn_type f)) c) = Ok (x, rest) ->
       List.length x = c_sizeof (cls (fn_type f)) ->
       c_move (cls (fn_type f)) x = Throw e' ->
       outcome r = Throw e' /\ empty (this r) = true) /\
    (forall f,
       function_ c = Some f ->
       query_noexcept c = Some false ->
       outcome r = Throw e /\ empty (this r) = true) /\
    (empty c = true -> outcome r = Throw e /\ empty (this r) = true).
Proof.
  exists (emplace_steps _T (Throw e) c tr).
  destruct (emplace_steps_constructor_throws _T e c tr) as [H1 [H2 [H3 H4]]].
  split; [reflexivity|]. split.
  { unfold emplace_steps.
    destruct (outcome
                (if negb (empty c) &&
                    match query_noexcept c with Some b => b | None => false end
                 then assign_from_another rvalue_another c
                        (static_any_default (capacity c)) tr
                 else {| outcome := Ok tt;
                         this := static_any_default (capacity c);
                         source := c; log := tr |})) as [u|e0];
      [|exists e0; reflexivity].
    match goal with
    | |- context [if ?b then _ else _] => destruct b
    end; simpl.
    - match goal with
      | |- context [outcome ?a] => destruct (outcome a) as [u'|e1]
      end; eexists; reflexivity.
    - eexists; reflexivity. }
  split; [exact H1|]. split; [exact H2|]. split.
  { intros f x rest e' Hf Hq Hm Hlen Hback.
    eapply emplace_steps_move_back_throws; eassumption. }
  split; [exact H3 | exact H4].
Qed.

(** X9: [emplace<T>(args...)] whose constructor returns.  An object larger
    than the storage overruns it ([emplace] does not check the size).  For
    an object that fits (and, when the old value is kept aside, a move to
    the side slot that returns) the container holds the new object, with
    [has<T>()], [type() == typeid(T)], [size() == sizeof(T)] and [get<T>()]
    the constructed object, and every payload is destroyed once: nothing
    for an empty container, the old payload when it was not kept aside, and
    otherwise the moved-from old payload and then the copy in the side
    slot. *)
Theorem emplace_ok (_T : qtype) (obj : bytes) (c : static_any) (tr : trace) :
  (List.length (buff_ c) < List.length obj -> emplace _T (Ok obj) c tr = None) /\
  (List.length obj <= List.length (buff_ c) ->
   List.length obj = sizeof _T ->
   (forall f, function_ c = Some f -> query_noexcept c = Some true ->
      exists x rest,
        c_move (cls (fn_type f)) (as_ (plain (fn_type f)) c) = Ok (x, rest)) ->
   exists r,
     emplace _T (Ok obj) c tr = Some r /\
     (outcome r = Ok tt /\
      function_ (this r) = Some (get_function_for_type _T) /\
      capacity (this r) = capacity c /\
      has _T (this r) = true /\
      type (this r) = typeid _T /\
      size (this r) = sizeof _T /\
      get (plain (q_base _T)) (this r) = Ok obj) /\
     (empty c = true ->
      log r = tr ++ [constructed by_args (q_base _T) obj] /\
      List.length (buff_ (this r)) = List.length (buff_ c)) /\
     (forall f, function_ c = Some f -> query_noexcept c = Some false ->
        log r = tr ++ [destroyed (fn_type f) (as_ (plain (fn_type f)) c);
                       constructed by_args (q_base _T) obj] /\
        List.length (buff_ (this r)) = List.length (buff_ c)) /\
     (forall f x rest,
        function_ c = Some f -> query_noexcept c = Some true ->
        c_move (cls (fn_type f)) (as_ (plain (fn_type f)) c) = Ok (x, rest) ->
        List.length x = c_sizeof (cls (fn_type f)) ->
        List.length rest = c_sizeof (cls (fn_type f)) ->
        log r = tr ++ [constructed by_move (fn_type f) x;
                       destroyed (fn_type f) rest;
                       constructed by_args (q_base _T) obj;
                       destroyed (fn_type f) x])).
Proof.
  split.
  - intros Hbig. unfold emplace.
    apply Nat.leb_gt in Hbig. rewrite Hbig. reflexivity.
  - intros Hfit Hlen Hmove.
    exists (emplace_steps _T (Ok obj) c tr).
    destruct (@emplace_steps_ok _T obj c tr Hlen Hmove) as [Hp [He [Hn Hk]]].
    split.
    { unfold emplace. apply Nat.leb_le in Hfit. rewrite Hfit. reflexivity. }
    split; [exact Hp|]. split; [|split; [|exact Hk]].
    + intros Hempty. split; [apply He; exact Hempty|].
      rewrite emplace_ok_not_kept by (rewrite Hempty; reflexivity).
      simpl. apply length_placement. exact Hfit.
    + intros f Hf Hq. split; [apply (Hn f Hf Hq)|].
      rewrite emplace_ok_not_kept by (rewrite Hq; apply andb_false_r).
      simpl. apply length_placement. exact Hfit.
Qed.

(** *** Qualifiers of the value type *)


(** *** [operator=] from a container *)

(** Every source form but a const lvalue of the same capacity selects one
    of the three templates, which call [assign_from_another]. *)
Lemma operator_assign_another_template (a : another_arg)
  (another c : static_any) (tr : trace) :
  capacity another <= capacity c ->
  (a = const_lvalue_another -> capacity another <> capacity c) ->
  operator_assign_another a another c tr
  = Some (assign_from_another a another c tr).
Proof.
  intros Hle Hne. unfold operator_assign_another.
  apply Nat.leb_le in Hle. rewrite Hle.
  destruct a; try reflexivity.
  destruct (capacity another =? capacity c) eqn:Heq; [|reflexivity].
  apply Nat.eqb_eq in Heq. destruct (Hne eq_refl Heq).
Qed.

(** X6: assignment from a non-empty container through the [operator=]
    templates (every source form but a const lvalue of the same capacity),
    when the payload constructor (copy for an lvalue source, move for an
    rvalue source) throws: the exception propagates, the source is
    untouched and nothing is constructed; the destination is exactly what
    it was when the source's dispatcher does not report the no-throw
    guarantee, and is left empty when it does.  A const lvalue of the same
    capacity selects the implicit member-wise copy assignment, which calls
    no constructor and does not throw. *)
Theorem operator_assign_another_throws (a : another_arg)
  (another c : static_any) (tr : trace) (f : function_ptr_t) :
  function_ another = Some f ->
  capacity another <= capacity c ->
  (forall e,
     (a = const_lvalue_another -> capacity another <> capacity c) ->
     another_constructor a f (as_ (plain (fn_type f)) another) = Throw e ->
     exists r,
       operator_assign_another a another c tr = Some r /\
       outcome r = Throw e /\
       source r = another /\
       log r = snd (destroy c tr) /\
       (query_noexcept another = Some false -> this r = c) /\
       (query_noexcept another = Some true ->
        this r = set_function c None /\ empty (this r) = true)) /\
  (capacity another = capacity c ->
   exists r,
     operator_assign_another const_lvalue_another another c tr = Some r /\
     outcome r = Ok tt /\
     this r = implicit_copy another c /\
     source r = another /\
     log r = tr).
Proof.
  intros Hf Hle. split.
  - intros e Hne Hthrow.
    exists (assign_from_another a another c tr).
    split; [apply operator_assign_another_template; assumption|].
    apply (@assign_from_another_on_throw a another c tr f e Hf Hthrow).
  - intros Heq. unfold operator_assign_another.
    apply Nat.eqb_eq in Heq. rewrite Heq.
    eexists. split; [reflexivity|]. repeat split; reflexivity.
Qed.

(** X7: assignment from a non-empty container through the [operator=]
    templates (every source form but a const lvalue of the same capacity),
    when the payload constructor returns: the destination's old payload, if
    any, is destroyed exactly once and one payload is constructed (by copy
    for the lvalue forms, by move for an rvalue); the destination adopts
    the very dispatcher pointer of the source, keeps its own capacity and
    storage size, reports the source's type and size, and [get] returns the
    constructed object.  A const lvalue of the same capacity selects the
    implicit member-wise copy assignment: the destination takes the bytes
    and the dispatcher of the source, nothing is destroyed and nothing is
    constructed. *)
Theorem operator_assign_another_ok (a : another_arg)
  (another c : static_any) (tr : trace) (f : function_ptr_t) :
  function_ another = Some f ->
  capacity another <= capacity c ->
  (forall obj,
     (a = const_lvalue_another -> capacity another <> capacity c) ->
     another_constructor a f (as_ (plain (fn_type f)) another) = Ok obj ->
     List.length obj = c_sizeof (cls (fn_type f)) ->
     c_sizeof (cls (fn_type f)) <= List.length (buff_ c) ->
     exists r,
       operator_assign_another a another c tr = Some r /\
       outcome r = Ok tt /\
       function_ (this r) = Some f /\
       capacity (this r) = capacity c /\
       List.length (buff_ (this r)) = List.length (buff_ c) /\
       type (this r) = type another /\
       size (this r) = size another /\
       has (plain (fn_type f)) (this r) = true /\
       get (plain (fn_type f)) (this r) = Ok obj /\
       log r = snd (destroy c tr)
               ++ [constructed (if another_is_rvalue a then by_move else by_copy)
                     (fn_type f) obj] /\
       (forall g, function_ c = Some g ->
          log r = tr ++ [destroyed (fn_type g) (as_ (plain (fn_type g)) c);
                         constructed
                           (if another_is_rvalue a then by_move else by_copy)
                           (fn_type f) obj])) /\
  (capacity another = capacity c ->
   exists r,
     operator_assign_another const_lvalue_another another c tr = Some r /\
     outcome r = Ok tt /\
     function_ (this r) = Some f /\
     buff_ (this r) = buff_ another /\
     capacity (this r) = capacity c /\
     has (plain (fn_type f)) (this r) = true /\
     get (plain (fn_type f)) (this r) = Ok (as_ (plain (fn_type f)) another) /\
     source r = another /\
     log r = tr).
Proof.
  intros Hf Hle. split.
  - intros obj Hne Hok Hlen Hroom.
    exists (assign_from_another a another c tr).
    split; [apply operator_assign_another_template; assumption|].
    apply (@assign_from_another_on_return a another c tr f obj Hf Hok Hlen Hroom).
  - intros Heq. unfold operator_assign_another.
    apply Nat.eqb_eq in Heq. rewrite Heq.
    eexists. split; [reflexivity|]. cbn [outcome this source log].
    unfold implicit_copy.
    split; [reflexivity|]. split; [exact Hf|]. split; [reflexivity|].
    split; [reflexivity|]. split.
    { apply has_spec. exists f. split; [exact Hf | reflexivity]. }
    split; [|split; reflexivity].
    erewrite get_of_bound; [reflexivity | exact Hf | reflexivity].
Qed.

End Model.

(** ** The trivial container: properties *)

(** C9: a trivially copyable value of a size within the capacity, stored by
    construction or by assignment, is read back byte for byte by
    [get<T>()] (the argument is an lvalue or an rvalue of type [T]; a
    const-qualified argument is not accepted by the compiler); and copying
    a trivial container, by the defaulted copy constructor, the copy
    assignment or the forwarding constructor, copies the whole storage, all
    [_N] bytes, whatever was stored. *)
Theorem trivial_container_round_trip (cls : type_id -> class_info) (_N : nat)
  (_ValueT : qtype) (v indeterminate : bytes) (c another : static_any_t.t) :
  q_const _ValueT = false ->
  c_trivially_copyable (cls (q_base _ValueT)) = true ->
  c_sizeof (cls (q_base _ValueT)) <= _N ->
  List.length v = c_sizeof (cls (q_base _ValueT)) ->
  static_any_t.capacity c = _N ->
  List.length (static_any_t.buff_ c) = _N ->
  List.length (static_any_t.buff_ another) = _N ->
  (exists c',
     static_any_t.from_value cls _N indeterminate _ValueT v = Some c' /\
     static_any_t.get cls _ValueT c' = v) /\
  (exists c',
     static_any_t.operator_assign cls _ValueT v c = Some c' /\
     static_any_t.get cls _ValueT c' = v) /\
  (static_any_t.buff_ (static_any_t.copy_constructor another)
   = static_any_t.buff_ another /\
   List.length (static_any_t.buff_ (static_any_t.copy_constructor another)) = _N) /\
  static_any_t.buff_ (static_any_t.copy_assignment another c)
  = static_any_t.buff_ another /\
  (exists c',
     static_any_t.copy_from_lvalue _N another c = Some c' /\
     static_any_t.buff_ c' = static_any_t.buff_ another) /\
  static_any_t.from_value cls _N indeterminate
    {| q_base := q_base _ValueT; q_const := true; q_ref := q_ref _ValueT |} v
  = None.
Proof.
  intros Hk Ht Hs Hv Hc Hlc Hla.
  assert (Hfit : (c_sizeof (cls (q_base _ValueT)) <=? _N) = true)
    by (apply Nat.leb_le; exact Hs).
  assert (Hget : forall b,
            firstn (c_sizeof (cls (q_base _ValueT)))
              (memcpy b v (c_sizeof (cls (q_base _ValueT)))) = v).
  { intros b. unfold memcpy. rewrite <- Hv.
    rewrite firstn_all, firstn_app, firstn_all, Nat.sub_diag.
    simpl. apply app_nil_r. }
  split; [|split; [|split; [|split; [|split]]]].
  - unfold static_any_t.from_value, static_any_t.copy, static_any_t.default.
    simpl. rewrite Hk, Ht, Hfit. simpl. eexists. split; [reflexivity|].
    unfold static_any_t.get. simpl. apply Hget.
  - unfold static_any_t.operator_assign, static_any_t.copy.
    rewrite Hk, Ht, Hc, Hfit. simpl. eexists. split; [reflexivity|].
    unfold static_any_t.get. simpl. apply Hget.
  - split; [reflexivity | exact Hla].
  - reflexivity.
  - unfold static_any_t.copy_from_lvalue. rewrite Hc, Nat.leb_refl.
    eexists. split; [reflexivity|]. simpl.
    apply memcpy_whole; assumption.
  - reflexivity.
Qed.

(** ** The test-suite, replayed on the model (unit [0], [test_classes]) *)

(** [TEST(any, contructed_with_param_non_empty)], [TEST(any, has)]: the
    constructor builds [holding_int]. *)
Example constructed_with_int :
  option_map (fun r => (outcome r, this r))
    (static_any_from_value test_classes 0 16 t_int false rvalue (int_bytes 77) [])
  = Some (Ok tt, holding_int 16 77).
Proof. reflexivity. Qed.

Example constructed_with_CallCounter :
  static_any_from_value test_classes 0 16 t_CallCounter false lvalue [x01] []
  = Some {| outcome := Ok tt;
            this := holding_CallCounter 16;
            source := [x01];
            log := [constructed by_copy t_CallCounter [x01]] |}.
Proof. reflexivity. Qed.

(** [TEST(any_exception, restore_when_failed)] *)
Example restore_when_failed :
  option_map
    (fun r => (outcome r, empty (this r),
               get test_classes 0 (plain t_int) (this r),
               type test_classes (this r)))
    (operator_assign_value test_classes 0 t_unsafe_to_copy false rvalue [x00]
       (holding_int 16 1234) [])
  = Some (Throw (thrown_value 123), false, Ok (int_bytes 1234), typeid_of t_int).
Proof. reflexivity. Qed.

(** [TEST(any_exception, copy)] *)
Example copy_into_empty_throws :
  option_map (fun r => (outcome r, empty (this r)))
    (operator_assign_value test_classes 0 t_unsafe_to_copy false lvalue [x00]
       (static_any_default 16) [])
  = Some (Throw (thrown_value 123), true).
Proof. reflexivity. Qed.

(** [TEST(any_exception, emplace)] *)
Example emplace_on_empty_throws :
  option_map (fun r => (outcome r, empty (this r)))
    (emplace test_classes 0 (plain t_unsafe_to_construct)
       unsafe_to_construct_ctor (static_any_default 16) [])
  = Some (Throw (thrown_value 123), true).
Proof. reflexivity. Qed.

(** [TEST(any_exception, copy_from_any)] and [TEST(any_exception,
    move_from_any)] *)
Example copy_from_any_throws :
  option_map
    (fun r => (outcome r, empty (this r),
               get test_classes 0 (plain t_int) (this r),
               type test_classes (this r)))
    (operator_assign_another test_classes lvalue_another
       holding_unsafe_to_copy (holding_int 16 1234) [])
  = Some (Throw (thrown_value 123), false, Ok (int_bytes 1234), typeid_of t_int).
Proof. reflexivity. Qed.

Example move_from_any_throws :
  option_map
    (fun r => (outcome r, get test_classes 0 (plain t_int) (this r)))
    (operator_assign_another test_classes rvalue_another
       holding_unsafe_to_copy (holding_int 16 1234) [])
  = Some (Throw (thrown_value 123), Ok (int_bytes 1234)).
Proof. reflexivity. Qed.

(** [TEST(any, any_to_bigger_any)] *)
Example any_to_bigger_any :
  option_map
    (fun r => (outcome r, get test_classes 0 (plain t_int) (this r),
               get test_classes 0 (plain t_int) (source r)))
    (operator_assign_another test_classes lvalue_another
       (holding_int 16 1) (holding_int 32 2) [])
  = Some (Ok tt, Ok (int_bytes 1), Ok (int_bytes 1)).
Proof. reflexivity. Qed.

(** [TEST(any, any_move_ctor)]: one move construction; and, as
    [TEST(any, any_to_any_move_construction)] asserts, neither container is
    empty after the move. *)
Example any_move_ctor :
  option_map (fun r => (log r, empty (source r), empty (this r)))
    (static_any_from_another test_classes 16 rvalue_another
       (holding_CallCounter 16) [])
  = Some ([constructed by_move t_CallCounter [x01]], false, false).
Proof. reflexivity. Qed.

(** [TEST(any, any_cast_reference_wrong_type_from_to)] *)
Example any_cast_reference_wrong_type_from_to :
  any_cast_ref test_classes 0 (plain t_float) (holding_int 16 7)
  = Throw (thrown_bad_any_cast
             (make_bad_any_cast (typeid_of t_int) (typeid_of t_float))).
Proof. reflexivity. Qed.

(** [TEST(any, type_identification_across_dll)] *)
Example type_identification_across_dll :
  (has test_classes 0 (plain t_int) (received_int 16 7),
   has test_classes 0 (plain t_string) (received_int 16 7),
   get test_classes 0 (plain t_int) (received_int 16 7))
  = (true, false, Ok (int_bytes 7)).
Proof. reflexivity. Qed.

(** [TEST(any_t, simple)] *)
Example any_t_simple :
  option_map (static_any_t.get test_classes (plain t_int))
    (static_any_t.from_value test_classes 4 (repeat xff 4) (plain t_int)
       (int_bytes 7))
  = Some (int_bytes 7).
Proof. reflexivity. Qed.

(** ** Where the header departs from its specification: the inputs *)

(** C3, as stated, fails: [static_any<16> a(1); static_any<32> b(2);
    b = std::move(a);] returns and leaves [a] non-empty, still an [int]. *)
Lemma move_assignment_does_not_empty_source :
  option_map (fun r => (outcome r, empty (source r), type test_classes (source r)))
    (operator_assign_another test_classes rvalue_another
       (holding_int 16 1) (holding_int 32 2) [])
  = Some (Ok tt, false, typeid_of t_int) /\
  option_map (fun r => empty (source r))
    (operator_assign_another test_classes rvalue_another
       (holding_int 16 1) (holding_int 32 2) [])
  <> Some true.
Proof. split; [reflexivity | discriminate]. Qed.

(** [static_any<16> a(1234); unsafe_to_copy u; a = u;] *)
Lemma assign_lvalue_copy_throws_loses_value_witness :
  function_ (holding_int 16 1234) = Some {| fn_unit := 0; fn_type := t_int |} /\
  c_sizeof (test_classes t_unsafe_to_copy) <= capacity (holding_int 16 1234) /\
  c_copy (test_classes t_unsafe_to_copy)
    (firstn (c_sizeof (test_classes t_unsafe_to_copy)) [x00])
  = Throw (thrown_value 123) /\
  exists r,
    operator_assign_value test_classes 0 t_unsafe_to_copy false lvalue [x00]
      (holding_int 16 1234) [] = Some r /\
    outcome r = Throw (thrown_value 123) /\
    empty (this r) = true /\
    type test_classes (this r) = typeid_void /\
    has test_classes 0 (plain t_int) (this r) = false.
Proof.
  assert (Hfit : c_sizeof (test_classes t_unsafe_to_copy)
                 <= capacity (holding_int 16 1234)) by (simpl; lia).
  split; [reflexivity|]. split; [exact Hfit|]. split; [reflexivity|].
  exact (@assign_lvalue_copy_throws_loses_value test_classes 0
           t_unsafe_to_copy [x00] (holding_int 16 1234) []
           (thrown_value 123) {| fn_unit := 0; fn_type := t_int |}
           eq_refl Hfit eq_refl).
Defined.

(** [{ static_any<16> a(counter); try { a = unsafe_to_copy(); }
    catch (...) {} }]: one [CallCounter] constructed in the container, two
    destructor calls. *)
Lemma restored_payload_destroyed_twice_witness :
  function_ (holding_CallCounter 16)
  = Some {| fn_unit := 0; fn_type := t_CallCounter |} /\
  c_sizeof (test_classes t_unsafe_to_copy) <= capacity (holding_CallCounter 16) /\
  c_nothrow_copy (test_classes t_unsafe_to_copy) = false /\
  c_move (test_classes t_unsafe_to_copy)
    (firstn (c_sizeof (test_classes t_unsafe_to_copy)) [x00])
  = Throw (thrown_value 123) /\
  (exists r,
     operator_assign_value test_classes 0 t_unsafe_to_copy false rvalue [x00]
       (holding_CallCounter 16) [constructed by_copy t_CallCounter [x01]]
     = Some r /\
     outcome r = Throw (thrown_value 123) /\
     destructor test_classes (this r) (log r) =
     [constructed by_copy t_CallCounter [x01];
      destroyed t_CallCounter [x01];
      destroyed t_CallCounter [x01]]) /\
  option_map (fun r => (constructions t_CallCounter (snd r),
                        destructions t_CallCounter (snd r)))
    (construct_assign_destroy test_classes 0 16
       t_CallCounter false lvalue [x01]
       t_unsafe_to_copy false rvalue [x00])
  = Some (1, 2).
Proof.
  assert (Hfit : c_sizeof (test_classes t_unsafe_to_copy)
                 <= capacity (holding_CallCounter 16)) by (simpl; lia).
  split; [reflexivity|]. split; [exact Hfit|]. split; [reflexivity|].
  split; [reflexivity|]. split; [|reflexivity].
  destruct (@restored_payload_destroyed_twice test_classes 0
              t_unsafe_to_copy [x00] (holding_CallCounter 16)
              [constructed by_copy t_CallCounter [x01]]
              (thrown_value 123) {| fn_unit := 0; fn_type := t_CallCounter |}
              eq_refl Hfit eq_refl eq_refl) as [r [Hr [Ho [_ Hd]]]].
  exists r. split; [exact Hr|]. split; [exact Ho | exact Hd].
Defined.

(** [static_any<16> a(counter); static_any<16> b(a);] *)
Lemma construction_from_lvalue_container_moves_witness :
  function_ (holding_CallCounter 16)
  = Some {| fn_unit := 0; fn_type := t_CallCounter |} /\
  capacity (holding_CallCounter 16) <= 16 /\
  c_move (test_classes t_CallCounter)
    (as_ test_classes (plain t_CallCounter) (holding_CallCounter 16))
  = Ok ([x01], [x01]) /\
  option_map (fun r => (outcome r, function_ (this r), log r))
    (static_any_from_another test_classes 16 lvalue_another
       (holding_CallCounter 16) [])
  = Some (Ok tt,
          Some {| fn_unit := 0; fn_type := t_CallCounter |},
          [constructed by_move t_CallCounter [x01]]).
Proof.
  assert (Hle : capacity (holding_CallCounter 16) <= 16) by (simpl; lia).
  split; [reflexivity|]. split; [exact Hle|]. split; [reflexivity|].
  rewrite (@construction_from_lvalue_container_moves test_classes 16
             (holding_CallCounter 16) []
             {| fn_unit := 0; fn_type := t_CallCounter |} [x01] [x01]
             eq_refl Hle eq_refl).
  reflexivity.
Defined.

(** ** The theorems at the inputs of the test-suite *)

Lemma has_exact_type_witness :
  function_ (received_int 16 7) = Some {| fn_unit := 1; fn_type := t_int |} /\
  1 <> 0 /\
  function_ptr_eqb {| fn_unit := 1; fn_type := t_int |}
    (get_function_for_type 0 (plain t_int)) = false /\
  has test_classes 0 (plain t_int) (received_int 16 7) = true.
Proof.
  destruct (has_exact_type test_classes 0 (plain t_int) (received_int 16 7))
    as [_ [_ [_ H]]].
  destruct (H {| fn_unit := 1; fn_type := t_int |}) as [H1 [_ H3]];
    [reflexivity | reflexivity | discriminate |].
  split; [reflexivity|]. split; [discriminate|]. split; [exact H1 | exact H3].
Defined.

Lemma any_cast_type_mismatch_witness :
  has test_classes 0 (plain t_float) (holding_int 16 7) = false /\
  any_cast_ptr test_classes 0 (plain t_float) (holding_int 16 7) = Ok None /\
  exists e,
    get test_classes 0 (plain t_float) (holding_int 16 7)
    = Throw (thrown_bad_any_cast e) /\
    stored_type e = type test_classes (holding_int 16 7) /\
    target_type e = typeid_of t_float.
Proof.
  destruct (@any_cast_type_mismatch test_classes 0 (plain t_float)
              (holding_int 16 7) eq_refl) as [Hp [_ [[e [_ [Hg [_ [Hs Ht]]]]] _]]].
  split; [reflexivity|]. split; [exact Hp|].
  exists e. split; [exact Hg|]. split; [exact Hs | exact Ht].
Defined.


Lemma copy_assign_from_another_witness :
  another_is_rvalue lvalue_another = false /\
  capacity (holding_int 16 1) <= capacity (holding_int 32 2) /\
  exists r,
    operator_assign_another test_classes lvalue_another
      (holding_int 16 1) (holding_int 32 2) [] = Some r /\
    outcome r = Ok tt /\
    has test_classes 0 (plain t_int) (this r) = true /\
    get test_classes 0 (plain t_int) (this r) = Ok (int_bytes 1).
Proof.
  destruct (@copy_assign_from_another test_classes 0 lvalue_another
              (holding_int 16 1) (holding_int 32 2) [] eq_refl) as [_ H].
  assert (Hle : capacity (holding_int 16 1) <= capacity (holding_int 32 2))
    by (simpl; lia).
  destruct (H Hle) as [Hc _].
  split; [reflexivity|]. split; [exact Hle|].
  apply (Hc {| fn_unit := 0; fn_type := t_int |} (int_bytes 1));
    reflexivity.
Defined.

Lemma source_after_copy_and_after_move_witness :
  function_ (holding_handle 32 5) = Some {| fn_unit := 0; fn_type := t_handle |} /\
  capacity (holding_handle 32 5) <= capacity (holding_int 32 2) /\
  exists r,
    operator_assign_another test_classes rvalue_another
      (holding_handle 32 5) (holding_int 32 2) [] = Some r /\
    function_ (source r) = Some {| fn_unit := 0; fn_type := t_handle |} /\
    empty (source r) = false /\
    type test_classes (source r) = type test_classes (holding_handle 32 5) /\
    buff_ (source r) = repeat x00 32.
Proof.
  assert (Hle : capacity (holding_handle 32 5) <= capacity (holding_int 32 2))
    by (simpl; lia).
  destruct (@source_after_copy_and_after_move test_classes
              (holding_handle 32 5) (holding_int 32 2) []
              {| fn_unit := 0; fn_type := t_handle |} eq_refl Hle)
    as [_ [[r [Hr [Hf [He [Ht Hb]]]]] _]].
  split; [reflexivity|]. split; [exact Hle|].
  exists r. split; [exact Hr|]. split; [exact Hf|]. split; [exact He|].
  split; [exact Ht|].
  destruct (Hb (int_bytes 5) (int_bytes 0) eq_refl) as [_ Hs].
  rewrite Hs. reflexivity.
Defined.

(** [static_any<16> a(1234); a.emplace<unsafe_to_construct>();], the same
    on a container holding a [CallCounter], and on an empty one. *)
Lemma emplace_constructor_throws_witness :
  (function_ (holding_int 16 1234) = Some {| fn_unit := 0; fn_type := t_int |} /\
   query_noexcept test_classes (holding_int 16 1234) = Some true /\
   c_move (test_classes t_int) (int_bytes 1234)
   = Ok (int_bytes 1234, int_bytes 1234) /\
   exists r,
     emplace test_classes 0 (plain t_unsafe_to_construct)
       unsafe_to_construct_ctor (holding_int 16 1234) [] = Some r /\
     outcome r = Throw (thrown_value 123) /\
     as_ test_classes (plain t_int) (this r) = int_bytes 1234) /\
  (query_noexcept test_classes (holding_CallCounter 16) = Some false /\
   exists r,
     emplace test_classes 0 (plain t_unsafe_to_construct)
       unsafe_to_construct_ctor (holding_CallCounter 16) [] = Some r /\
     empty (this r) = true) /\
  (empty (static_any_default 16) = true /\
   exists r,
     emplace test_classes 0 (plain t_unsafe_to_construct)
       unsafe_to_construct_ctor (static_any_default 16) [] = Some r /\
     empty (this r) = true).
Proof.
  split; [|split].
  - destruct (emplace_constructor_throws test_classes 0
                (plain t_unsafe_to_construct) (thrown_value 123)
                (holding_int 16 1234) []) as [r [Hr [_ [H _]]]].
    destruct (H {| fn_unit := 0; fn_type := t_int |} (int_bytes 1234)
                (int_bytes 1234)) as [Ho [_ [_ Ha]]];
      try reflexivity.
    split; [reflexivity|]. split; [reflexivity|]. split; [reflexivity|].
    exists r. split; [exact Hr|]. split; [exact Ho | exact Ha].
  - destruct (emplace_constructor_throws test_classes 0
                (plain t_unsafe_to_construct) (thrown_value 123)
                (holding_CallCounter 16) []) as [r [Hr [_ [_ [_ [_ [H _]]]]]]].
    destruct (H {| fn_unit := 0; fn_type := t_CallCounter |}) as [_ He];
      try reflexivity.
    split; [reflexivity|]. exists r. split; [exact Hr | exact He].
  - destruct (emplace_constructor_throws test_classes 0
                (plain t_unsafe_to_construct) (thrown_value 123)
                (static_any_default 16) []) as [r [Hr [_ [_ [_ [_ [_ H]]]]]]].
    destruct H as [_ He]; [reflexivity|].
    split; [reflexivity|]. exists r. split; [exact Hr | exact He].
Defined.

(** C5, as stated, fails: [static_any<16> a; a.emplace<once_movable>();
    a.emplace<unsafe_to_construct>();].  The dispatcher of the held value
    reports the no-throw guarantee (its copy constructor is [noexcept]); the
    value is moved aside, the new constructor throws [123], moving the old
    value back throws [7]: that exception leaves [emplace] and the
    container is empty. *)
Lemma emplace_move_back_throws_loses_value :
  query_noexcept test_classes holding_once_movable = Some true /\
  option_map
    (fun r => (outcome r, empty (this r), type test_classes (this r), log r))
    (emplace test_classes 0 (plain t_unsafe_to_construct)
       unsafe_to_construct_ctor holding_once_movable [])
  = Some (Throw (thrown_value 7), true, typeid_void,
          [constructed by_move t_once_movable [x01];
           destroyed t_once_movable [x00];
           destroyed t_once_movable [x01]]).
Proof. split; reflexivity. Qed.

Lemma trivial_container_round_trip_witness :
  q_const (plain t_int) = false /\
  c_trivially_copyable (test_classes t_int) = true /\
  c_sizeof (test_classes t_int) <= 4 /\
  List.length (int_bytes 7) = c_sizeof (test_classes t_int) /\
  exists c',
    static_any_t.from_value test_classes 4 (repeat xff 4) (plain t_int)
      (int_bytes 7) = Some c' /\
    static_any_t.get test_classes (plain t_int) c' = int_bytes 7.
Proof.
  assert (Hs : c_sizeof (test_classes (q_base (plain t_int))) <= 4)
    by (simpl; lia).
  destruct (@trivial_container_round_trip test_classes 4 (plain t_int)
              (int_bytes 7) (repeat xff 4)
              (static_any_t.default 4 (repeat x00 4))
              (static_any_t.default 4 (repeat x01 4))
              eq_refl eq_refl Hs eq_refl eq_refl eq_refl eq_refl) as [H _].
  split; [reflexivity|]. split; [reflexivity|]. split; [exact Hs|].
  split; [reflexivity | exact H].
Defined.

(** ** Further properties: across units, and the trivial container *)

(** X13: [has<T>()], [type()] and [get<T>()] do not depend on the unit
    that evaluates them: a container handed from one unit to another
    answers the same in both, whichever unit instantiated its dispatcher. *)
Theorem observers_do_not_depend_on_unit (cls : type_id -> class_info)
  (here there : nat) (_T : qtype) (c : static_any) :
  has cls here _T c = has cls there _T c /\
  get cls here _T c = get cls there _T c /\
  any_cast_ptr cls here _T c = any_cast_ptr cls there _T c.
Proof.
  assert (Hh : has cls here _T c = has cls there _T c).
  { destruct (has cls here _T c) eqn:H1, (has cls there _T c) eqn:H2;
      try reflexivity.
    - apply has_spec in H1. apply (has_spec cls there) in H1. congruence.
    - apply has_spec in H2. apply (has_spec cls here) in H2. congruence. }
  split; [exact Hh|].
  unfold get, any_cast_ref, any_cast_ptr. rewrite Hh. split; reflexivity.
Qed.

Lemma length_memcpy (dst src : bytes) (n : nat) :
  n <= List.length src -> n <= List.length dst ->
  List.length (memcpy dst src n) = List.length dst.
Proof.
  intros Hs Hd. unfold memcpy.
  rewrite length_app, length_firstn, length_skipn. lia.
Qed.

Lemma skipn_memcpy (dst src : bytes) (n : nat) :
  n <= List.length src -> skipn n (memcpy dst src n) = skipn n dst.
Proof.
  intros Hs. unfold memcpy.
  rewrite skipn_app, length_firstn.
  replace (Nat.min n (List.length src)) with n by lia.
  rewrite Nat.sub_diag. simpl.
  rewrite skipn_all2; [reflexivity|]. rewrite length_firstn. lia.
Qed.

(** X14: the trivial container accepts a value exactly when its type is
    not const-qualified, trivially copyable and no larger than the
    capacity; an accepted store
    keeps the capacity and the size of the storage, overwrites the first
    [sizeof(T)] bytes only (the bytes behind them are what they were), and
    [get<U>()] of any type no larger than [T] reads back the leading bytes
    of the stored value without any check. *)
Theorem trivial_container_store (cls : type_id -> class_info)
  (_ValueT _U : qtype) (v : bytes) (c : static_any_t.t) :
  (static_any_t.operator_assign cls _ValueT v c = None <->
   q_const _ValueT = true \/
   c_trivially_copyable (cls (q_base _ValueT)) = false \/
   static_any_t.capacity c < c_sizeof (cls (q_base _ValueT))) /\
  (forall c',
     static_any_t.operator_assign cls _ValueT v c = Some c' ->
     List.length v = c_sizeof (cls (q_base _ValueT)) ->
     List.length (static_any_t.buff_ c) = static_any_t.capacity c ->
     static_any_t.capacity c' = static_any_t.capacity c /\
     List.length (static_any_t.buff_ c') = static_any_t.capacity c /\
     skipn (c_sizeof (cls (q_base _ValueT))) (static_any_t.buff_ c')
     = skipn (c_sizeof (cls (q_base _ValueT))) (static_any_t.buff_ c) /\
     (c_sizeof (cls (q_base _U)) <= c_sizeof (cls (q_base _ValueT)) ->
      static_any_t.get cls _U c' = firstn (c_sizeof (cls (q_base _U))) v)).
Proof.
  unfold static_any_t.operator_assign, static_any_t.copy. split.
  - destruct (q_const _ValueT); simpl;
      [split; [intros _; left; reflexivity | reflexivity]|].
    destruct (c_trivially_copyable (cls (q_base _ValueT))); simpl.
    + destruct (c_sizeof (cls (q_base _ValueT)) <=? static_any_t.capacity c)
        eqn:Hle.
      * split; [discriminate|]. apply Nat.leb_le in Hle.
        intros [H|[H|H]]; [discriminate | discriminate | lia].
      * split; [|reflexivity]. apply Nat.leb_gt in Hle.
        intros _. right. right. exact Hle.
    + split; [intros _; right; left; reflexivity | reflexivity].
  - intros c' Hsome Hv Hwf.
    destruct (q_const _ValueT); [discriminate|]. simpl in Hsome.
    destruct (c_trivially_copyable (cls (q_base _ValueT))); [|discriminate].
    destruct (c_sizeof (cls (q_base _ValueT)) <=? static_any_t.capacity c)
      eqn:Hle; [|discriminate].
    apply Nat.leb_le in Hle. simpl in Hsome. inversion Hsome; subst c'. simpl.
    split; [reflexivity|]. split; [rewrite length_memcpy; lia|].
    split; [apply skipn_memcpy; lia|].
    intros Hu. unfold static_any_t.get, memcpy. simpl.
    rewrite <- Hv at 1. rewrite firstn_all.
    rewrite firstn_app.
    replace (c_sizeof (cls (q_base _U)) - List.length v) with 0 by lia.
    simpl. apply app_nil_r.
Qed.

(** ** The further properties at the inputs of the test-suite *)

(** [static_any<16> a(77);] *)
Lemma construct_from_value_ok_witness :
  c_sizeof (test_classes t_int) <= 16 /\
  chosen_constructor test_classes t_int rvalue (int_bytes 77) = Ok (int_bytes 77) /\
  List.length (int_bytes 77) = c_sizeof (test_classes t_int) /\
  exists r,
    static_any_from_value test_classes 0 16 t_int false rvalue (int_bytes 77) []
    = Some r /\
    has test_classes 0 (plain t_int) (this r) = true /\
    size test_classes (this r) = 4 /\
    get test_classes 0 (plain t_int) (this r) = Ok (int_bytes 77).
Proof.
  assert (Hfit : c_sizeof (test_classes t_int) <= 16) by (simpl; lia).
  destruct (@construct_from_value_ok test_classes 0 16 t_int false rvalue
              (int_bytes 77) (int_bytes 77) [] Hfit eq_refl eq_refl)
    as [r [Hr [_ [_ [Hh [Hs [_ [Hg _]]]]]]]].
  split; [exact Hfit|]. split; [reflexivity|]. split; [reflexivity|].
  exists r. split; [exact Hr|]. split; [exact Hh|]. split; [exact Hs | exact Hg].
Defined.

(** [static_any<16> a = unsafe_to_copy();] ([TEST(any_exception, init)]), and
    a [double] for a capacity of 4. *)
Lemma construct_from_value_fails_witness :
  4 < c_sizeof (test_classes t_double) /\
  static_any_from_value test_classes 0 4 t_double false rvalue (repeat x40 8) []
  = None /\
  c_sizeof (test_classes t_unsafe_to_copy) <= 16 /\
  chosen_constructor test_classes t_unsafe_to_copy rvalue [x00]
  = Throw (thrown_value 123) /\
  exists r,
    static_any_from_value test_classes 0 16 t_unsafe_to_copy false rvalue [x00] []
    = Some r /\
    outcome r = Throw (thrown_value 123) /\
    empty (this r) = true.
Proof.
  assert (Hbig : 4 < c_sizeof (test_classes t_double)) by (simpl; lia).
  assert (Hfit : c_sizeof (test_classes t_unsafe_to_copy) <= 16) by (simpl; lia).
  destruct (construct_from_value_fails test_classes 0 4 t_double false rvalue
              (repeat x40 8) []) as [Hrej _].
  destruct (construct_from_value_fails test_classes 0 16 t_unsafe_to_copy false
              rvalue [x00] []) as [_ Hthrow].
  destruct (Hthrow (thrown_value 123) Hfit eq_refl) as [r [Hr [Ho [He _]]]].
  split; [exact Hbig|]. split; [exact (Hrej Hbig)|]. split; [exact Hfit|].
  split; [reflexivity|]. exists r. split; [exact Hr|]. split; [exact Ho | exact He].
Defined.

(** [static_any<16> a(counter); a.reset();] ([TEST(any, reset_destruction)]) *)
Lemma reset_empties_once_witness :
  function_ (holding_CallCounter 16)
  = Some {| fn_unit := 0; fn_type := t_CallCounter |} /\
  snd (reset test_classes (holding_CallCounter 16) [])
  = [destroyed t_CallCounter [x01]] /\
  destructions t_CallCounter
    (snd (reset test_classes
            (fst (reset test_classes (holding_CallCounter 16) []))
            (snd (reset test_classes (holding_CallCounter 16) [])))) = 1.
Proof.
  destruct (reset_empties_once test_classes 0 (holding_CallCounter 16) []
              (plain t_CallCounter))
    as [_ [_ [_ [_ [_ [_ [Hl [_ Hi]]]]]]]].
  split; [reflexivity|]. split.
  - apply (Hl {| fn_unit := 0; fn_type := t_CallCounter |}). reflexivity.
  - rewrite Hi. reflexivity.
Defined.

(** [static_any<16> a(7); a = 3.14;]
    ([TEST(any, different_type_after_assignment)]) *)
Lemma assign_value_ok_witness :
  c_sizeof (test_classes t_double) <= capacity (holding_int 16 7) /\
  List.length (buff_ (holding_int 16 7)) = capacity (holding_int 16 7) /\
  chosen_constructor test_classes t_double rvalue (repeat x40 8)
  = Ok (repeat x40 8) /\
  List.length (repeat x40 8) = c_sizeof (test_classes t_double) /\
  exists r,
    operator_assign_value test_classes 0 t_double false rvalue (repeat x40 8)
      (holding_int 16 7) [] = Some r /\
    has test_classes 0 (plain t_double) (this r) = true /\
    has test_classes 0 (plain t_int) (this r) = false /\
    log r = [destroyed t_int (int_bytes 7);
             constructed by_move t_double (repeat x40 8)].
Proof.
  assert (Hfit : c_sizeof (test_classes t_double) <= capacity (holding_int 16 7))
    by (simpl; lia).
  destruct (@assign_value_ok test_classes 0 t_double rvalue (repeat x40 8)
              (repeat x40 8) (holding_int 16 7) [] Hfit eq_refl eq_refl eq_refl)
    as [r [Hr [_ [Hh [_ [_ [_ [_ [_ [_ Hf]]]]]]]]]].
  destruct (Hf {| fn_unit := 0; fn_type := t_int |} eq_refl) as [Hl Hn].
  split; [exact Hfit|]. split; [reflexivity|]. split; [reflexivity|].
  split; [reflexivity|]. exists r. split; [exact Hr|]. split; [exact Hh|].
  split; [apply Hn; discriminate | exact Hl].
Defined.

(** [static_any<16> a(1234); a = unsafe_to_copy();]
    ([TEST(any_exception, restore_when_failed)]) *)
Lemma assign_value_throws_witness :
  c_sizeof (test_classes t_unsafe_to_copy) <= capacity (holding_int 16 1234) /\
  chosen_constructor test_classes t_unsafe_to_copy rvalue [x00]
  = Throw (thrown_value 123) /\
  c_nothrow_copy (test_classes t_unsafe_to_copy) = false /\
  exists r,
    operator_assign_value test_classes 0 t_unsafe_to_copy false rvalue [x00]
      (holding_int 16 1234) [] = Some r /\
    outcome r = Throw (thrown_value 123) /\
    this r = holding_int 16 1234.
Proof.
  assert (Hfit : c_sizeof (test_classes t_unsafe_to_copy)
                 <= capacity (holding_int 16 1234)) by (simpl; lia).
  destruct (@assign_value_throws test_classes 0 t_unsafe_to_copy rvalue [x00]
              (holding_int 16 1234) [] (thrown_value 123) Hfit eq_refl)
    as [r [Hr [Ho [_ [_ [Hkeep _]]]]]].
  split; [exact Hfit|]. split; [reflexivity|]. split; [reflexivity|].
  exists r. split; [exact Hr|]. split; [exact Ho|].
  apply Hkeep; reflexivity.
Defined.

(** [TEST(any_exception, copy_from_any)] *)
Lemma operator_assign_another_throws_witness :
  function_ holding_unsafe_to_copy
  = Some {| fn_unit := 0; fn_type := t_unsafe_to_copy |} /\
  capacity holding_unsafe_to_copy <= capacity (holding_int 16 1234) /\
  another_constructor test_classes lvalue_another
    {| fn_unit := 0; fn_type := t_unsafe_to_copy |}
    (as_ test_classes (plain t_unsafe_to_copy) holding_unsafe_to_copy)
  = Throw (thrown_value 123) /\
  query_noexcept test_classes holding_unsafe_to_copy = Some false /\
  exists r,
    operator_assign_another test_classes lvalue_another
      holding_unsafe_to_copy (holding_int 16 1234) [] = Some r /\
    outcome r = Throw (thrown_value 123) /\
    this r = holding_int 16 1234.
Proof.
  assert (Hle : capacity holding_unsafe_to_copy <= capacity (holding_int 16 1234))
    by (simpl; lia).
  destruct (@operator_assign_another_throws test_classes lvalue_another
              holding_unsafe_to_copy (holding_int 16 1234) []
              {| fn_unit := 0; fn_type := t_unsafe_to_copy |} eq_refl Hle)
    as [H _].
  destruct (H (thrown_value 123)) as [r [Hr [Ho [_ [_ [Hkeep _]]]]]];
    [discriminate | reflexivity |].
  split; [reflexivity|]. split; [exact Hle|]. split; [reflexivity|].
  split; [reflexivity|].
  exists r. split; [exact Hr|]. split; [exact Ho | apply Hkeep; reflexivity].
Defined.

(** [static_any<32> a(handle{5}); static_any<32> b(2); b = std::move(a);] *)
Lemma operator_assign_another_ok_witness :
  function_ (holding_handle 32 5)
  = Some {| fn_unit := 0; fn_type := t_handle |} /\
  capacity (holding_handle 32 5) <= capacity (holding_int 32 2) /\
  another_constructor test_classes rvalue_another
    {| fn_unit := 0; fn_type := t_handle |}
    (as_ test_classes (plain t_handle) (holding_handle 32 5)) = Ok (int_bytes 5) /\
  List.length (int_bytes 5) = c_sizeof (test_classes t_handle) /\
  c_sizeof (test_classes t_handle) <= List.length (buff_ (holding_int 32 2)) /\
  exists r,
    operator_assign_another test_classes rvalue_another
      (holding_handle 32 5) (holding_int 32 2) [] = Some r /\
    get test_classes 0 (plain t_handle) (this r) = Ok (int_bytes 5) /\
    log r = [destroyed t_int (int_bytes 2);
             constructed by_move t_handle (int_bytes 5)].
Proof.
  assert (Hle : capacity (holding_handle 32 5) <= capacity (holding_int 32 2))
    by (simpl; lia).
  assert (Hroom : c_sizeof (test_classes t_handle)
                  <= List.length (buff_ (holding_int 32 2)))
    by (vm_compute; lia).
  destruct (@operator_assign_another_ok test_classes 0 rvalue_another
              (holding_handle 32 5) (holding_int 32 2) []
              {| fn_unit := 0; fn_type := t_handle |} eq_refl Hle)
    as [H _].
  destruct (H (int_bytes 5)) as [r [Hr [_ [_ [_ [_ [_ [_ [_ [Hg [_ Hl]]]]]]]]]]];
    [discriminate | reflexivity | reflexivity | exact Hroom |].
  split; [reflexivity|]. split; [exact Hle|]. split; [reflexivity|].
  split; [reflexivity|]. split; [exact Hroom|].
  exists r. split; [exact Hr|]. split; [exact Hg|].
  apply (Hl {| fn_unit := 0; fn_type := t_int |}). reflexivity.
Defined.

(** [static_any<16> a; static_any<16> b(a);]
    ([TEST(any, any_to_any_copy_uninitialized)]), and a capacity-32 source
    for a capacity-16 container. *)
Lemma construct_from_another_edge_cases_witness :
  16 < capacity (holding_handle 32 5) /\
  static_any_from_another test_classes 16 rvalue_another (holding_handle 32 5) []
  = None /\
  function_ (static_any_default 16) = None /\
  exists r,
    static_any_from_another test_classes 16 lvalue_another
      (static_any_default 16) [] = Some r /\
    empty (this r) = true /\ log r = [].
Proof.
  assert (Hbig : 16 < capacity (holding_handle 32 5)) by (simpl; lia).
  destruct (construct_from_another_edge_cases test_classes 16 rvalue_another
              (holding_handle 32 5) []) as [Hrej _].
  destruct (construct_from_another_edge_cases test_classes 16 lvalue_another
              (static_any_default 16) []) as [_ [Hempty _]].
  split; [exact Hbig|]. split; [exact (Hrej Hbig)|]. split; [reflexivity|].
  eexists. split; [reflexivity|].
  destruct (Hempty _ eq_refl eq_refl) as [_ [He [_ [_ Hl]]]].
  split; [exact He | exact Hl].
Defined.

(** [static_any<32> a; a.emplace<CallCounter>();]
    ([TEST(any, destroyed_after_emplace)]), and an [int] emplaced in a
    container of capacity 2. *)
Lemma emplace_ok_witness :
  List.length [x01] <= List.length (buff_ (static_any_default 32)) /\
  List.length [x01] = sizeof test_classes (plain t_CallCounter) /\
  empty (static_any_default 32) = true /\
  (exists r,
     emplace test_classes 0 (plain t_CallCounter) (Ok [x01])
       (static_any_default 32) [] = Some r /\
     has test_classes 0 (plain t_CallCounter) (this r) = true /\
     log r = [constructed by_args t_CallCounter [x01]]) /\
  emplace test_classes 0 (plain t_int) (Ok (int_bytes 7))
    (static_any_default 2) [] = None.
Proof.
  assert (Hfit : List.length [x01] <= List.length (buff_ (static_any_default 32)))
    by (simpl; lia).
  destruct (emplace_ok test_classes 0 (plain t_CallCounter) [x01]
              (static_any_default 32) []) as [_ Hok].
  destruct (Hok Hfit eq_refl) as [r [Hr [[_ [_ [_ [Hh _]]]] [Hl _]]]].
  { intros f Hf. discriminate Hf. }
  destruct (emplace_ok test_classes 0 (plain t_int) (int_bytes 7)
              (static_any_default 2) []) as [Hover _].
  split; [exact Hfit|]. split; [reflexivity|]. split; [reflexivity|].
  split.
  - exists r. split; [exact Hr|]. split; [exact Hh|].
    destruct (Hl eq_refl) as [Hlog _]. exact Hlog.
  - apply Hover. simpl. lia.
Defined.

(** [TEST(any, any_cast_pointer_correct_type)] and
    [TEST(any, any_cast_pointer_wrong_type)] *)
Lemma casts_agree_witness :
  any_cast_ref test_classes 0 (plain t_int) (holding_int 16 7) = Ok (int_bytes 7) /\
  any_cast_ptr test_classes 0 (plain t_int) (holding_int 16 7)
  = Ok (Some (int_bytes 7)) /\
  has test_classes 0 (plain t_float) (holding_int 16 7) = false /\
  any_cast_ptr test_classes 0 (plain t_float) (holding_int 16 7) = Ok None.
Proof.
  destruct (casts_agree test_classes 0 (plain t_int) (holding_int 16 7))
    as [_ [_ [Hx _]]].
  destruct (casts_agree test_classes 0 (plain t_float) (holding_int 16 7))
    as [Hn _].
  split; [reflexivity|]. split; [apply Hx; reflexivity|].
  split; [reflexivity | apply Hn; reflexivity].
Defined.

(** [TEST(any, has)], [TEST(any, query_type)] *)
Lemma observers_consistent_witness :
  has test_classes 0 (plain t_int) (holding_int 16 77) = true /\
  empty (holding_int 16 77) = false /\
  type test_classes (holding_int 16 77) = typeid_of t_int /\
  size test_classes (holding_int 16 77) = 4.
Proof.
  destruct (observers_consistent test_classes 0 (holding_int 16 77)
              (plain t_int) (plain t_double)) as [_ [_ [H _]]].
  destruct (H eq_refl) as [He [Ht Hs]].
  split; [reflexivity|]. split; [exact He|]. split; [exact Ht | exact Hs].
Defined.

(** [{ static_any<16> a(counter); }] ([TEST(any, destruction)]) and
    [{ static_any<16> a(1); a = counter; }] *)
Lemma lifetime_destroys_each_payload_once_witness :
  c_sizeof (test_classes t_int) <= 16 /\
  c_sizeof (test_classes t_CallCounter) <= 16 /\
  chosen_constructor test_classes t_int rvalue (int_bytes 1) = Ok (int_bytes 1) /\
  List.length (int_bytes 1) = c_sizeof (test_classes t_int) /\
  chosen_constructor test_classes t_CallCounter lvalue [x01] = Ok [x01] /\
  List.length [x01] = c_sizeof (test_classes t_CallCounter) /\
  construct_assign_destroy test_classes 0 16 t_int false rvalue (int_bytes 1)
    t_CallCounter false lvalue [x01]
  = Some (Ok tt, [constructed by_move t_int (int_bytes 1);
                  destroyed t_int (int_bytes 1);
                  constructed by_copy t_CallCounter [x01];
                  destroyed t_CallCounter [x01]]).
Proof.
  assert (H1 : c_sizeof (test_classes t_int) <= 16) by (simpl; lia).
  assert (H2 : c_sizeof (test_classes t_CallCounter) <= 16) by (simpl; lia).
  destruct (@lifetime_destroys_each_payload_once test_classes 0 16
              t_int false rvalue (int_bytes 1) (int_bytes 1)
              t_CallCounter lvalue [x01] [x01]
              H1 H2 eq_refl eq_refl eq_refl eq_refl) as [_ H].
  split; [exact H1|]. split; [exact H2|]. split; [reflexivity|].
  split; [reflexivity|]. split; [reflexivity|]. split; [reflexivity | exact H].
Defined.

(** A [static_any_t<8>] holding eight [0xff] bytes, assigned the [int] 7;
    a [const int] lvalue and a [CallCounter] are not accepted. *)
Lemma trivial_container_store_witness :
  (exists c',
     static_any_t.operator_assign test_classes (plain t_int) (int_bytes 7)
       (static_any_t.default 8 (repeat xff 8)) = Some c' /\
     List.length (int_bytes 7) = c_sizeof (test_classes (q_base (plain t_int))) /\
     skipn 4 (static_any_t.buff_ c') = repeat xff 4 /\
     static_any_t.get test_classes (plain t_int) c' = int_bytes 7) /\
  static_any_t.operator_assign test_classes
    {| q_base := t_int; q_const := true; q_ref := lvalue_ref |} (int_bytes 7)
    (static_any_t.default 8 (repeat xff 8)) = None /\
  static_any_t.operator_assign test_classes (plain t_CallCounter) [x01]
    (static_any_t.default 8 (repeat xff 8)) = None.
Proof.
  destruct (trivial_container_store test_classes
              {| q_base := t_int; q_const := true; q_ref := lvalue_ref |}
              (plain t_int) (int_bytes 7)
              (static_any_t.default 8 (repeat xff 8))) as [[_ Hconst] _].
  destruct (trivial_container_store test_classes (plain t_CallCounter)
              (plain t_int) [x01]
              (static_any_t.default 8 (repeat xff 8))) as [[_ Hrej] _].
  destruct (trivial_container_store test_classes (plain t_int) (plain t_int)
              (int_bytes 7) (static_any_t.default 8 (repeat xff 8)))
    as [_ Hok].
  split; [|split; [apply Hconst; left; reflexivity
                  | apply Hrej; right; left; reflexivity]].
  eexists. split; [reflexivity|]. split; [reflexivity|].
  destruct (Hok _ eq_refl eq_refl eq_refl) as [_ [_ [Hs Hg]]].
  split; [exact Hs|]. apply Hg. apply Nat.le_refl.
Defined.

(** [static_any<32> a(handle{5}); static_any<32> b; b = std::move(a);],
    then both destroyed. *)
Lemma moved_from_payload_is_destroyed_by_source_witness :
  function_ (holding_handle 32 5)
  = Some {| fn_unit := 0; fn_type := t_handle |} /\
  c_move (test_classes t_handle)
    (as_ test_classes (plain t_handle) (holding_handle 32 5))
  = Ok (int_bytes 5, int_bytes 0) /\
  List.length (int_bytes 5) = c_sizeof (test_classes t_handle) /\
  List.length (int_bytes 0) = c_sizeof (test_classes t_handle) /\
  destructor test_classes
    (this (assign_from_another test_classes rvalue_another
             (holding_handle 32 5) (static_any_default 32) []))
    (destructor test_classes
       (source (assign_from_another test_classes rvalue_another
                  (holding_handle 32 5) (static_any_default 32) []))
       (log (assign_from_another test_classes rvalue_another
               (holding_handle 32 5) (static_any_default 32) [])))
  = [constructed by_move t_handle (int_bytes 5);
     destroyed t_handle (int_bytes 0);
     destroyed t_handle (int_bytes 5)].
Proof.
  destruct (@moved_from_payload_is_destroyed_by_source test_classes
              (holding_handle 32 5) (static_any_default 32) []
              {| fn_unit := 0; fn_type := t_handle |} (int_bytes 5) (int_bytes 0)
              eq_refl eq_refl eq_refl eq_refl) as [_ [_ [_ H]]].
  split; [reflexivity|]. split; [reflexivity|]. split; [reflexivity|].
  split; [reflexivity | exact H].
Defined.
